(** * ENEM microdata pipeline ([dados.py]): ETL loaders, orchestrator and
      extractor, embedded as state-and-exception passing functions.

    The program talks to three things: environment variables, CSV files on
    disk and a PostgreSQL database reached through pandas/SQLAlchemy.  They
    are modelled by an explicit [World] (files, tables, trace of I/O
    operations); every function of the source that performs I/O becomes a
    function [World -> result * World], where the result is either a value
    or the Python exception that was raised.  [print] calls are progress
    messages and are left out, except for the message of [carregar_config],
    which is part of what that function is specified to do. *)

From Stdlib Require Import Ascii String QArith Qround ZArith.
From stdpp Require Import gmap strings list fin_maps.
From Equations Require Import Equations.

Open Scope string_scope.
Open Scope list_scope.

(** ** Data model *)

(** A cell of a DataFrame or of a table.  [Null] stands for NaN / None /
    SQL NULL; numbers are exact rationals (the decimal numerals of the CSV
    files), so the rounding of fractions in binary floating point is
    abstracted away; the rounding of whole numbers above 2^53, which changes
    a registration number, is modelled where a column of whole numbers
    becomes float64 ([para_float64] below).  In the parsed contents of a CSV
    file a field is [Null] when it is empty or one of the NA markers of
    [read_csv], [Num] when it is a numeral, and [Str] otherwise: the text of
    a [Str] cell of a file is not a numeral. *)
Inductive cell : Type :=
  | Null
  | Num (q : Q)
  | Str (s : string).

#[global] Instance Q_eq_dec : EqDecision Q.
Proof. solve_decision. Defined.

#[global] Instance cell_eq_dec : EqDecision cell.
Proof. solve_decision. Defined.

#[global] Instance cell_inhabited : Inhabited cell := populate Null.

(** A row maps column names to cells; a DataFrame (or a table, or the parsed
    contents of a CSV file) is the list of its rows under the default
    [RangeIndex] 0, 1, 2, ...: the position in the list is the index label. *)
Abbreviation row := (gmap string cell).
Abbreviation DataFrame := (list row).
Abbreviation Series := (list cell).

(** [if_exists] argument of [DataFrame.to_sql], as far as the source uses it. *)
Inductive if_exists : Type := replace | append.

(** I/O operations recorded in the trace of the world. *)
Inductive event : Type :=
  | EvReadCsv (caminho : string)
  | EvToSql (tabela : string) (modo : if_exists) (registros : nat)
  | EvQuery (tabelas_lidas : list string).

(** Python exceptions the modelled code can raise. *)
Inductive exn : Type :=
  | FileNotFoundError (caminho : string)
  | ValueError
  | TypeError
  | KeyError (chave : string)
  | ProgrammingError (relacao : string)
  | DataError
  | SystemExit (status : Z).

Inductive result (A : Type) : Type :=
  | Raise (e : exn)
  | Ok (a : A).
Arguments Raise {A} e.
Arguments Ok {A} a.

Record World : Type := mkWorld {
  arquivos : gmap string DataFrame;   (* path -> parsed rows of the CSV file *)
  tabelas : gmap string DataFrame;    (* table name -> rows of the table *)
  trace : list event                  (* reads, writes and queries so far *)
}.

(** ** The state-and-exception monad *)

Definition M (A : Type) : Type := World → result A * World.

Definition ret {A} (a : A) : M A := λ w, (Ok a, w).

Definition raise {A} (e : exn) : M A := λ w, (Raise e, w).

Definition bind {A B} (m : M A) (k : A → M B) : M B :=
  λ w, match m w with
       | (Ok a, w') => k a w'
       | (Raise e, w') => (Raise e, w')
       end.

Notation "'let!' x ':=' m 'in' k" := (bind m (λ x, k))
  (at level 10, x binder, m at level 100, k at level 200).
Notation "m1 '>>' m2" := (bind m1 (λ _, m2))
  (at level 100, m2 at level 200, right associativity).

Definition log (e : event) : M unit :=
  λ w, (Ok tt, mkWorld (arquivos w) (tabelas w) (trace w ++ [e])).

Definition set_tabelas (f : gmap string DataFrame → gmap string DataFrame) : M unit :=
  λ w, (Ok tt, mkWorld (arquivos w) (f (tabelas w)) (trace w)).

(** [for i, x in enumerate(xs): body(i, x)], counting from [i]. *)
Fixpoint for_enumerate {A} (i : nat) (xs : list A) (body : nat → A → M unit) : M unit :=
  match xs with
  | [] => ret tt
  | x :: xs' => body i x >> for_enumerate (S i) xs' body
  end.

(** ** The library calls the loaders make *)

(** [os.path.exists]. *)
Definition os_path_exists (caminho : string) : M bool :=
  λ w, (Ok (bool_decide (is_Some (arquivos w !! caminho))), w).

(** The chunks a pandas [TextFileReader] yields for [chunksize = S b]: slices
    of [S b] rows until the rows run out.  On its very first read the parser
    answers the end of the data with an empty frame (header only) instead of
    stopping, so a file without data rows yields one empty chunk. *)
Equations? get_chunks (b : nat) (first_chunk : bool) (linhas : DataFrame) :
    list DataFrame by wf (length linhas) lt :=
  get_chunks b true [] := [[]];
  get_chunks b false [] := [];
  get_chunks b _ (l :: ls) := take (S b) (l :: ls) :: get_chunks b false (drop (S b) (l :: ls)).
Proof. all: simpl; rewrite length_drop; lia. Qed.

(** [pd.read_csv(caminho, sep=';', encoding='ISO-8859-1', chunksize=c)]:
    the chunk size is validated first, then the file is opened. *)
Definition read_csv_chunks (caminho : string) (chunksize : nat) : M (list DataFrame) :=
  match chunksize with
  | 0 => raise ValueError
  | S b =>
      λ w, match arquivos w !! caminho with
           | None => (Raise (FileNotFoundError caminho), w)
           | Some linhas => (log (EvReadCsv caminho) >> ret (get_chunks b true linhas)) w
           end
  end.

(** [pd.read_csv(caminho, ...)] without [chunksize]: the whole file. *)
Definition read_csv (caminho : string) : M DataFrame :=
  λ w, match arquivos w !! caminho with
       | None => (Raise (FileNotFoundError caminho), w)
       | Some linhas => (log (EvReadCsv caminho) >> ret linhas) w
       end.

(** One INSERT of a batch of rows into an existing table. *)
Definition exec_insert (nome : string) (lote : DataFrame) : M unit :=
  set_tabelas (alter (λ t, t ++ lote) nome).

(** [SQLTable.insert]: nothing to do for an empty frame; otherwise the rows
    go in batches of [chunksize] (all at once when it is [None]; a chunk
    size of zero is refused). *)
Definition insert (nome : string) (df : DataFrame) (chunksize : option nat) : M unit :=
  match df with
  | [] => ret tt
  | _ :: _ =>
      match chunksize with
      | None => exec_insert nome df
      | Some 0 => raise ValueError
      | Some (S b) => for_enumerate 0 (get_chunks b false df) (λ _, exec_insert nome)
      end
  end.

Definition e_texto (c : option cell) : bool :=
  match c with Some (Str _) => true | _ => false end.

(** Whether column [c] of a table that has rows is a text column.  The
    table is created from the first frame written to it, and pandas makes a
    column TEXT exactly when that frame holds text in it; the rows written
    afterwards keep it so, so the type can be read off the rows: text when
    some row holds text in [c], a number type otherwise. *)
Definition coluna_texto (t : DataFrame) (c : string) : bool :=
  existsb (λ r : row, e_texto (r !! c)) t.

(** The rows of [df] can be appended to the table [t]: PostgreSQL refuses
    text for a number column, and with it the whole INSERT.  (A table
    without rows was created from an empty frame, all its columns TEXT.) *)
Definition cabe (t df : DataFrame) : bool :=
  match t with
  | [] => true
  | _ :: _ =>
      forallb (λ r : row,
                 forallb (λ cv : string * cell,
                            match cv.2 with
                            | Str _ => coluna_texto t cv.1
                            | _ => true
                            end)
                         (map_to_list r))
              df
  end.

(** What [to_sql] does to the table before it inserts: ['replace'] drops
    the table and creates it anew; ['append'] creates it only when it is
    missing, and is refused with the database's [DataError] when the frame
    does not fit the columns the table has. *)
Definition preparar_tabela (df : DataFrame) (nome : string) (modo : if_exists) : M unit :=
  match modo with
  | replace => set_tabelas (λ t, <[nome := []]> t)
  | append =>
      λ w, match tabelas w !! nome with
           | Some t => if cabe t df then (Ok tt, w) else (Raise DataError, w)
           | None => set_tabelas (λ t, <[nome := []]> t) w
           end
  end.

(** [df.to_sql(nome, engine, if_exists=modo, index=False, chunksize=c)].
    Cells are stored as they are, which is what happens when the table was
    created from the frame itself (['replace']) or from a frame with the
    same column types.  Three things the database and pandas do with values
    are outside this model, and the statements about batched loads exclude
    them by hypothesis ([tipos_estaveis] below): a fraction appended to a
    column that was created BIGINT is stored rounded, a number appended to
    a column that was created TEXT is stored as its text, and a column of
    whole numbers from 2^63 on (uint64) is refused by [to_sql].  The frames
    the source appends are batches of one file, so they have the columns of
    the table. *)
Definition to_sql (df : DataFrame) (nome : string) (modo : if_exists)
    (chunksize : option nat) : M unit :=
  log (EvToSql nome modo (length df)) >>
  preparar_tabela df nome modo >>
  insert nome df chunksize.

(** ** 3. ETL: the Bulk Loader *)

Definition chunksize_padrao : nat := 50000.

Definition carregar_tabela_csv (nome_tabela caminho_csv : string) (chunksize : nat) : M unit :=
  let! existe := os_path_exists caminho_csv in
  if negb existe then raise (FileNotFoundError caminho_csv)
  else
    let! chunk_iter := read_csv_chunks caminho_csv chunksize in
    for_enumerate 0 chunk_iter (λ i chunk,
      to_sql chunk nome_tabela (if (0 <? i)%nat then append else replace) None).

(** *** Files whose columns keep one type across the batches

    pandas infers the type of a column batch by batch, and the table gets
    its column types from the first batch.  The predicate below singles out
    the files for which no batch brings values of another type than the
    table has: every row has the same columns, and each column is made of
    whole numbers of magnitude at most 2^53 only, or of text only (no
    [True]/[False] words, which pandas reads as booleans), or of numbers
    and nulls with a null or a fraction already in the first batch (so the
    column is created as double precision). *)

(** A rational that is a whole number. *)
Definition inteiro (q : Q) : bool := Qeq_bool q (inject_Z (Qfloor q)).

Definition palavra_booleana (s : string) : bool :=
  bool_decide (s ∈ ["True"; "TRUE"; "true"; "False"; "FALSE"; "false"]).

Definition cel_inteira (c : cell) : bool :=
  match c with
  | Num q => inteiro q && (Z.abs (Qfloor q) <=? 2 ^ 53)%Z
  | _ => false
  end.

Definition cel_texto (c : cell) : bool :=
  match c with
  | Str s => negb (palavra_booleana s)
  | _ => false
  end.

Definition cel_numerica (c : cell) : bool :=
  match c with
  | Num q => negb (inteiro q) || (Z.abs (Qfloor q) <=? 2 ^ 53)%Z
  | Null => true
  | Str _ => false
  end.

Definition coluna_estavel (B : nat) (linhas : DataFrame) (c : string) : bool :=
  let cs := (λ r : row, r !!! c) <$> linhas in
  forallb cel_inteira cs
  || forallb cel_texto cs
  || (forallb cel_numerica cs && existsb (λ v, negb (cel_inteira v)) (take B cs)).

Definition tipos_estaveis (B : nat) (linhas : DataFrame) : bool :=
  match linhas with
  | [] => true
  | r0 :: _ =>
      forallb (λ r : row, bool_decide (dom r = dom r0)) linhas
      && forallb (coluna_estavel B linhas) (elements (dom r0))
  end.

(** Every column of the rows is text in all of them or in none. *)
Definition colunas_puras (linhas : DataFrame) : Prop :=
  ∀ c, (∀ r : row, r ∈ linhas → e_texto (r !! c) = true) ∨
       (∀ r : row, r ∈ linhas → e_texto (r !! c) = false).

(** ** 3. ETL: the Join Loader *)

(** The configuration dictionary as the ETL stage uses it: every entry it
    touches is passed where the libraries (and the signature of
    [carregar_tabela_csv]) expect a [str]. *)
Record Config : Type := mkConfig {
  DB_HOST : string;
  DB_PORT : Z;
  DB_NAME : string;
  DB_USER : string;
  DB_PASS : string;
  ARQUIVO_PARTICIPANTES : string;
  ARQUIVO_RESULTADOS : string;
  TABELA_PARTICIPANTES : string;
  TABELA_RESULTADOS : string
}.

(** Every row of [df] has every column of [cols] (a frame carries its
    columns in its rows here, so this is how a missing column shows). *)
Definition has_columns (cols : list string) (df : DataFrame) : bool :=
  forallb (λ r : row, forallb (λ c, bool_decide (is_Some (r !! c))) cols) df.

(** Keep only the columns [cols] of a row. *)
Definition projetar (cols : list string) (r : row) : row :=
  filter (λ kv, kv.1 ∈ cols) r.

(** [pd.read_csv(caminho, ..., usecols=cols)]: the file is opened, a column
    of [usecols] that the file does not have is a [ValueError]. *)
Definition read_csv_usecols (caminho : string) (cols : list string) : M DataFrame :=
  λ w, match arquivos w !! caminho with
       | None => (Raise (FileNotFoundError caminho), w)
       | Some linhas =>
           (log (EvReadCsv caminho) >>
            if has_columns cols linhas then ret (projetar cols <$> linhas)
            else raise ValueError) w
       end.

(** [df[col]] as a Series over the index of [df]; a missing column is a
    [KeyError]. *)
Definition getitem (df : DataFrame) (col : string) : M Series :=
  match mapM (λ r : row, r !! col) df with
  | Some serie => ret serie
  | None => raise (KeyError col)
  end.

(** The double nearest to an integer (ties to even): integers up to 2^53 in
    magnitude are doubles, larger ones keep their 53 leading bits. *)
Definition float64_de_Z (z : Z) : Z :=
  let a := Z.abs z in
  if (a <=? 2 ^ 53)%Z then z
  else
    let m := (2 ^ (Z.log2 a - 52))%Z in
    let q := (a / m)%Z in
    let r := (a mod m)%Z in
    let q' := if (m <? 2 * r)%Z || ((2 * r =? m)%Z && Z.odd q) then (q + 1)%Z else q in
    (Z.sgn z * (q' * m))%Z.

(** A cell of an integer column after the column has become float64. *)
Definition para_float64 (c : cell) : cell :=
  match c with
  | Num q =>
      if inteiro q && negb (Z.abs (Qfloor q) <=? 2 ^ 53)%Z
      then Num (inject_Z (float64_de_Z (Qfloor q)))
      else Num q
  | _ => c
  end.

(** A Series that has to hold a NaN: a column of numbers becomes float64, a
    column with text is of dtype object and keeps its values. *)
Definition com_nan (serie : Series) : Series :=
  if existsb (λ c, e_texto (Some c)) serie then serie else para_float64 <$> serie.

(** [serie.reindex(range(n))] for a Series with the labels 0, 1, 2, ...:
    labels past [n] are dropped, missing labels get NaN. *)
Definition reindex (serie : Series) (n : nat) : Series :=
  if (n <=? length serie)%nat then take n serie
  else com_nan serie ++ replicate (n - length serie) Null.

(** [df[col] = serie].  pandas aligns [serie] to the index of [df] by label.
    In every assignment of the source both sides carry the labels 0, 1, 2,
    ... of a fresh [read_csv] (Join Loader), or [serie] was computed from
    [df] itself (Extractor), so label [i] is position [i].  A frame without
    rows takes over the index of a Series that has values: it gets one row
    per value (its other columns, which a frame without rows cannot carry
    here, are NaN there). *)
Definition setitem (df : DataFrame) (col : string) (serie : Series) : DataFrame :=
  match df with
  | [] => (λ v, {[col := v]}) <$> serie
  | _ :: _ =>
      imap (λ i (r : row), <[col := default Null (reindex serie (length df) !! i)]> r) df
  end.

Definition carregar_tabela_resultados (config : Config) (chunksize : nat) : M unit :=
  let nome_tabela := TABELA_RESULTADOS config in
  let caminho_csv := ARQUIVO_RESULTADOS config in
  let! existe := os_path_exists caminho_csv in
  if negb existe then raise (FileNotFoundError caminho_csv)
  else
    let! df_inscricoes := read_csv_usecols (ARQUIVO_PARTICIPANTES config) ["NU_INSCRICAO"] in
    let! df_resultados := read_csv caminho_csv in
    let! inscricoes := getitem df_inscricoes "NU_INSCRICAO" in
    let df_resultados := setitem df_resultados "NU_INSCRICAO" inscricoes in
    to_sql df_resultados nome_tabela replace (Some chunksize).

(** ** 3. ETL: the Load Orchestrator *)

(** [inspect(engine).has_table(nome)]. *)
Definition has_table (nome : string) : M bool :=
  λ w, (Ok (bool_decide (is_Some (tabelas w !! nome))), w).

Definition verificar_carregar (config : Config) : M unit :=
  let tabela_p := TABELA_PARTICIPANTES config in
  let tabela_r := TABELA_RESULTADOS config in
  let! tem_participantes := has_table tabela_p in
  let! tem_resultados := has_table tabela_r in
  if tem_participantes && tem_resultados then ret tt
  else
    (if negb tem_participantes
     then carregar_tabela_csv tabela_p (ARQUIVO_PARTICIPANTES config) chunksize_padrao
     else ret tt) >>
    (if negb tem_resultados
     then carregar_tabela_resultados config chunksize_padrao
     else ret tt).

(** ** 4. Analysis: the Extractor/Transformer *)

(** SQL [=]: never true when a side is NULL. *)
Definition sql_eq (a b : cell) : bool :=
  match a, b with
  | Num x, Num y => Qeq_bool x y
  | Str s, Str t => bool_decide (s = t)
  | _, _ => false
  end.

(** SQL [x IN ('v1', 'v2', ...)] on a text value. *)
Definition sql_in (a : cell) (vals : list string) : bool :=
  match a with
  | Str s => bool_decide (s ∈ vals)
  | _ => false
  end.

Definition colunas_p : list string := ["Q006"; "TP_SEXO"; "TP_COR_RACA"; "SG_UF_PROVA"].
Definition colunas_r : list string :=
  ["NU_NOTA_CN"; "NU_NOTA_CH"; "NU_NOTA_LC"; "NU_NOTA_MT"; "NU_NOTA_REDACAO"].

(** The rows the query of [extrair_processar] selects from the rows [ps] of
    its table [p] and [rs] of its table [r].  The query has no ORDER BY, so
    the database may return these rows in any order; the list below is one
    of them, and the statements about the returned frame speak of which
    rows it has, not of where they stand. *)
Definition consulta (ps rs : DataFrame) : DataFrame :=
  p ← ps; r ← rs;
  if sql_eq (p !!! "NU_INSCRICAO") (r !!! "NU_INSCRICAO") && sql_in (p !!! "Q006") ["A"; "B"]
  then [projetar colunas_p p ∪ projetar colunas_r r]
  else [].

(** [pd.read_sql_query(query, engine)] for that query: the two relations are
    the ones the query text names, [participantes] and [resultados]; a
    relation or column that does not exist is an error of the database. *)
Definition read_sql_query : M DataFrame :=
  log (EvQuery ["participantes"; "resultados"]) >>
  λ w, match tabelas w !! "participantes" with
       | None => (Raise (ProgrammingError "participantes"), w)
       | Some ps =>
           match tabelas w !! "resultados" with
           | None => (Raise (ProgrammingError "resultados"), w)
           | Some rs =>
               if has_columns ("NU_INSCRICAO" :: colunas_p) ps
               then if has_columns ("NU_INSCRICAO" :: colunas_r) rs
                    then (Ok (consulta ps rs), w)
                    else (Raise (ProgrammingError "r"), w)
               else (Raise (ProgrammingError "p"), w)
           end
       end.

Definition notna (c : cell) : bool :=
  match c with Null => false | _ => true end.

(** [df.dropna(subset=cols, inplace=True)]. *)
Definition dropna (subset : list string) (df : DataFrame) : M DataFrame :=
  if has_columns subset df
  then ret (filter (λ r : row, forallb (λ c, notna (r !!! c)) subset) df)
  else raise (KeyError "subset").

(** The numbers among the cells, NaN skipped; text cannot be averaged. *)
Fixpoint numeros (cs : list cell) : result (list Q) :=
  match cs with
  | [] => Ok []
  | Null :: cs' => numeros cs'
  | Num q :: cs' => match numeros cs' with Ok qs => Ok (q :: qs) | Raise e => Raise e end
  | Str _ :: cs' => Raise TypeError
  end.

Definition soma (qs : list Q) : Q := foldr Qplus 0%Q qs.

(** Mean of one row of [df[cols]] under [mean(axis=1)] (skipna): the sum of
    the cells that are not NaN over their count, NaN when there is none. *)
Definition mean_row (cols : list string) (r : row) : result cell :=
  match mapM (λ c, r !! c) cols with
  | None => Raise (KeyError "mean")
  | Some cs =>
      match numeros cs with
      | Raise e => Raise e
      | Ok [] => Ok Null
      | Ok qs => Ok (Num (soma qs / inject_Z (Z.of_nat (length qs))))
      end
  end.

Fixpoint mean_axis1 (cols : list string) (df : DataFrame) : result Series :=
  match df with
  | [] => Ok []
  | r :: df' =>
      match mean_row cols r with
      | Raise e => Raise e
      | Ok m => match mean_axis1 cols df' with
                | Raise e => Raise e
                | Ok ms => Ok (m :: ms)
                end
      end
  end.

Definition lift {A} (r : result A) : M A := λ w, (r, w).

(** [Series.map(d)] with a dict: values that are not keys become NaN. *)
Definition map_dict (d : gmap string string) (c : cell) : cell :=
  match c with
  | Str s => match d !! s with Some v => Str v | None => Null end
  | _ => Null
  end.

Definition grupos_renda : gmap string string :=
  {[ "A" := "Nenhuma Renda"; "B" := "Até 1,3k" ]}.

Definition extrair_processar : M DataFrame :=
  let! df := read_sql_query in
  let col_notas := ["NU_NOTA_CN"; "NU_NOTA_CH"; "NU_NOTA_LC"; "NU_NOTA_MT"; "NU_NOTA_REDACAO"] in
  let! df := dropna col_notas df in
  let! medias := lift (mean_axis1 ["NU_NOTA_CN"; "NU_NOTA_CH"; "NU_NOTA_LC"; "NU_NOTA_MT"] df) in
  let df := setitem df "NOTA_MEDIA_OBJETIVA" medias in
  let! q006 := getitem df "Q006" in
  let df := setitem df "GRUPO_RENDA" (map_dict grupos_renda <$> q006) in
  ret df.

(** The steps of [extrair_processar] that follow the query, as a function
    of the frame the query returned. *)
Definition processar (df : DataFrame) : M DataFrame :=
  let col_notas := ["NU_NOTA_CN"; "NU_NOTA_CH"; "NU_NOTA_LC"; "NU_NOTA_MT"; "NU_NOTA_REDACAO"] in
  let! df := dropna col_notas df in
  let! medias := lift (mean_axis1 ["NU_NOTA_CN"; "NU_NOTA_CH"; "NU_NOTA_LC"; "NU_NOTA_MT"] df) in
  let df := setitem df "NOTA_MEDIA_OBJETIVA" medias in
  let! q006 := getitem df "Q006" in
  let df := setitem df "GRUPO_RENDA" (map_dict grupos_renda <$> q006) in
  ret df.

(** The columns of the frame [extrair_processar] returns: the nine the
    query selects and the two derived ones. *)
Definition colunas_saida : list string :=
  colunas_p ++ colunas_r ++ ["NOTA_MEDIA_OBJETIVA"; "GRUPO_RENDA"].

(** ** 6. Main flow: from the ETL stage to the analysis frame *)

(** The two calls of [main] between connecting and writing the outputs:
    [verificar_carregar(engine, config)] and then
    [df_analise = extrair_processar(engine)]; an exception of the first
    ends the flow. *)
Definition etl_e_analise (config : Config) : M DataFrame :=
  verificar_carregar config >> extrair_processar.

(** The registration numbers of a participant file are present and
    pairwise different (as SQL compares them). *)
Definition inscricoes_distintas (part : DataFrame) : Prop :=
  ∀ i j (p p' : row), part !! i = Some p → part !! j = Some p' →
    (sql_eq (p !!! "NU_INSCRICAO") (p' !!! "NU_INSCRICAO") = true ↔ i = j).

(** ** 1. Configuration *)

(** Values of the configuration dictionary: [os.getenv] gives a string or
    [None], the port goes through [int]. *)
Inductive pyval : Type :=
  | PyNone
  | PyStr (s : string)
  | PyInt (z : Z).

#[global] Instance pyval_inhabited : Inhabited pyval := populate PyNone.

Definition os_getenv (environ : gmap string string) (k : string) : pyval :=
  match environ !! k with
  | Some s => PyStr s
  | None => PyNone
  end.

Definition digito (a : ascii) : option Z :=
  let n := nat_of_ascii a in
  if (48 <=? n)%nat && (n <=? 57)%nat then Some (Z.of_nat (n - 48)) else None.

Fixpoint digitos (s : string) (acc : Z) : option Z :=
  match s with
  | EmptyString => Some acc
  | String a s' =>
      match digito a with
      | Some d => digitos s' (10 * acc + d)%Z
      | None => None
      end
  end.

(** Plain decimal numerals with an optional sign: the part of the syntax
    of [int] that a port number uses.  [int] reads more strings than these
    (blanks around the numeral, single underscores between digits, the
    decimal digits of other scripts); the statements about what
    [carregar_config] returns take a port that is a plain numeral. *)
Definition parse_int (s : string) : option Z :=
  match s with
  | EmptyString => None
  | String "-" (String _ _ as s') => Z.opp <$> digitos s' 0
  | String "+" (String _ _ as s') => digitos s' 0
  | _ => digitos s 0
  end.

(** Python's [int(v)]: [None] is a [TypeError], a string that is not a
    numeral a [ValueError]. *)
Definition py_int (v : pyval) : result Z :=
  match v with
  | PyNone => Raise TypeError
  | PyStr s => match parse_int s with Some z => Ok z | None => Raise ValueError end
  | PyInt z => Ok z
  end.

(** Truth value of a Python object. *)
Definition truthy (v : pyval) : bool :=
  match v with
  | PyNone => false
  | PyStr s => negb (bool_decide (s = ""))
  | PyInt z => negb (z =? 0)%Z
  end.

Definition nl : string := String (ascii_of_nat 10) "".

Definition mensagens_senha : list string :=
  [ (nl ++ "❌ ERRO: Senha do banco (DB_PASS) não configurada no arquivo .env!")%string;
    "   Crie um arquivo .env com: DB_PASS=sua_senha" ].

(** [carregar_config]: the outcome (the dictionary, or the exception that
    ends the call, [SystemExit] for [sys.exit]) and the lines printed. *)
Definition carregar_config (environ : gmap string string) :
    result (gmap string pyval) * list string :=
  match py_int (os_getenv environ "DB_PORT") with
  | Raise e => (Raise e, [])
  | Ok porta =>
      let config : gmap string pyval :=
        list_to_map
          [ ("DB_HOST", os_getenv environ "DB_HOST");
            ("DB_PORT", PyInt porta);
            ("DB_NAME", os_getenv environ "DB_NAME");
            ("DB_USER", os_getenv environ "DB_USER");
            ("DB_PASS", os_getenv environ "DB_PASS");
            ("ARQUIVO_PARTICIPANTES", os_getenv environ "ARQUIVO_PARTICIPANTES");
            ("ARQUIVO_RESULTADOS", os_getenv environ "ARQUIVO_RESULTADOS");
            ("TABELA_PARTICIPANTES", os_getenv environ "TABELA_PARTICIPANTES");
            ("TABELA_RESULTADOS", os_getenv environ "TABELA_RESULTADOS") ] in
      if negb (truthy (config !!! "DB_PASS"))
      then (Raise (SystemExit 1), mensagens_senha)
      else (Ok config, [])
  end.


(** ** 2. Connection: the password in the URL of [conectar_db] *)

(** [urllib.parse.quote_plus] on the bytes of a string: letters, digits and
    [_.-~] stay, a space becomes [+], every other byte becomes [%XY] with
    two upper-case hexadecimal digits. *)
Definition sempre_seguro (a : ascii) : bool :=
  let n := nat_of_ascii a in
  ((65 <=? n) && (n <=? 90))%nat || ((97 <=? n) && (n <=? 122))%nat
  || ((48 <=? n) && (n <=? 57))%nat
  || bool_decide (a ∈ ["_"; "."; "-"; "~"]%char).

Definition hex (n : nat) : ascii :=
  nth n (list_ascii_of_string "0123456789ABCDEF") "0"%char.

Fixpoint quote_plus (s : string) : string :=
  match s with
  | EmptyString => EmptyString
  | String a s' =>
      if sempre_seguro a then String a (quote_plus s')
      else if Ascii.eqb a " " then String "+" (quote_plus s')
      else String "%" (String (hex (nat_of_ascii a / 16))
                         (String (hex (nat_of_ascii a mod 16)) (quote_plus s')))
  end.

(** The first assignment of [conectar_db]: the password as it goes into the
    connection URL, between the [:] after the user and the [@] before the
    host. *)
Definition senha_tratada (config : Config) : string := quote_plus (DB_PASS config).

(** ** 1. Encoding detection *)

(** What [chardet.detect] answers. *)
Record deteccao : Type := mkDeteccao {
  encoding : option string;
  confidence : Q
}.

Inductive exn_encoding : Type := ImportError | OutraExcecao.

(** The body of the [try] of [detectar_encoding_arquivo].  [chardet] is the
    module's [detect] when the module is installed ([None] from it stands
    for an exception inside the call); [disco] holds the bytes of the files;
    [f.read(sample_size)] takes the first [sample_size] bytes. *)
Definition detectar_encoding_try (chardet : option (string → option deteccao))
    (disco : gmap string string) (caminho_arquivo : string) (sample_size : nat) :
    exn_encoding + option string :=
  match chardet with
  | None => inl ImportError
  | Some detect =>
      match disco !! caminho_arquivo with
      | None => inl OutraExcecao
      | Some conteudo =>
          let raw_data := substring 0 sample_size conteudo in
          match detect raw_data with
          | None => inl OutraExcecao
          | Some resultado =>
              if negb (Qle_bool (7 # 10) (confidence resultado))
              then inr (Some "ISO-8859-1")
              else inr (encoding resultado)
          end
      end
  end.

Definition detectar_encoding_arquivo (chardet : option (string → option deteccao))
    (disco : gmap string string) (caminho_arquivo : string) (sample_size : nat) :
    option string :=
  match detectar_encoding_try chardet disco caminho_arquivo sample_size with
  | inr enc => enc
  | inl ImportError => Some "ISO-8859-1"
  | inl OutraExcecao => Some "ISO-8859-1"
  end.

(** ** Sample data: three registrants, codes A, C, B *)

Module Exemplo.

Definition linha_p (inscricao : Z) (q006 : string) : row :=
  {[ "NU_INSCRICAO" := Num (inject_Z inscricao); "Q006" := Str q006;
     "TP_SEXO" := Str "F"; "TP_COR_RACA" := Num 3; "SG_UF_PROVA" := Str "SP" ]}.

Definition linha_r (cn ch lc mt red : cell) : row :=
  {[ "NU_NOTA_CN" := cn; "NU_NOTA_CH" := ch; "NU_NOTA_LC" := lc;
     "NU_NOTA_MT" := mt; "NU_NOTA_REDACAO" := red ]}.

Definition participantes_csv : DataFrame :=
  [ linha_p 1 "A"; linha_p 2 "C"; linha_p 3 "B" ].

Definition resultados_csv : DataFrame :=
  [ linha_r (Num 500) (Num 520) (Num 480) (Num 600) (Num 900);
    linha_r (Num 400) (Num 410) (Num 420) (Num 430) (Num 440);
    linha_r (Num 610) (Num 590) (Num 600) (Num 700) (Num 560) ].

(** A result file with one row more than the participant file, and one
    with one row less. *)
Definition resultados_longo : DataFrame :=
  resultados_csv ++ [ linha_r (Num 300) (Num 310) (Num 320) (Num 330) Null ].

Definition resultados_curto : DataFrame :=
  [ linha_r (Num 500) (Num 520) (Num 480) (Num 600) (Num 900);
    linha_r (Num 400) (Num 410) (Num 420) (Num 430) (Num 440) ].

Definition arquivos0 : gmap string DataFrame :=
  {[ "participantes.csv" := participantes_csv; "resultados.csv" := resultados_csv;
     "longo.csv" := resultados_longo; "curto.csv" := resultados_curto ]}.

(** Files on disk, empty database, nothing done yet. *)
Definition mundo0 : World := mkWorld arquivos0 ∅ [].

(** A database left over from an earlier run. *)
Definition mundo_velho : World :=
  mkWorld arquivos0 {[ "participantes" := [linha_p 9 "A"; linha_p 8 "B"] ]} [].

Definition config0 : Config :=
  mkConfig "localhost" 5432 "enem" "postgres" "segredo"
           "participantes.csv" "resultados.csv" "participantes" "resultados".

(** The same, with other table names. *)
Definition config_tb : Config :=
  mkConfig "localhost" 5432 "enem" "postgres" "segredo"
           "participantes.csv" "resultados.csv" "tb_participantes" "tb_resultados".

Definition config_longo : Config :=
  mkConfig "localhost" 5432 "enem" "postgres" "segredo"
           "participantes.csv" "longo.csv" "participantes" "resultados".

Definition config_curto : Config :=
  mkConfig "localhost" 5432 "enem" "postgres" "segredo"
           "participantes.csv" "curto.csv" "participantes" "resultados".

Definition config_sem_arquivo : Config :=
  mkConfig "localhost" 5432 "enem" "postgres" "segredo"
           "participantes.csv" "nao_existe.csv" "participantes" "resultados".

(** An environment with every variable set. *)
Definition environ0 : gmap string string :=
  {[ "DB_HOST" := "localhost"; "DB_PORT" := "5432"; "DB_NAME" := "enem";
     "DB_USER" := "postgres"; "DB_PASS" := "segredo";
     "ARQUIVO_PARTICIPANTES" := "participantes.csv";
     "ARQUIVO_RESULTADOS" := "resultados.csv";
     "TABELA_PARTICIPANTES" := "participantes";
     "TABELA_RESULTADOS" := "resultados" ]}.





(** The database after the ETL stage ran on [mundo0], and the frame the
    Extractor/Transformer returns on it. *)
Definition mundo_carregado : World := (verificar_carregar config0 mundo0).2.

Definition df_analise : DataFrame :=
  match (extrair_processar mundo_carregado).1 with
  | Ok df => df
  | Raise _ => []
  end.

Definition linha_analise (i : nat) : row := default ∅ (df_analise !! i).

End Exemplo.

(** * Properties *)

(** ** Chunking *)

Lemma concat_get_chunks (b : nat) (first_chunk : bool) (linhas : DataFrame) :
  concat (get_chunks b first_chunk linhas) = linhas.
Proof.
  funelim (get_chunks b first_chunk linhas); simp get_chunks; try done.
  all: rewrite concat_cons.
  all: match goal with IH : concat _ = _ |- _ => rewrite IH end.
  all: apply take_drop.
Qed.

Lemma get_chunks_first (b : nat) (linhas : DataFrame) :
  ∃ c cs, get_chunks b true linhas = c :: cs.
Proof. destruct linhas; simp get_chunks; eauto. Qed.

(** Batch size does not matter to what the chunks hold together. *)
Lemma get_chunks_batch_irrelevant (b b' : nat) (f f' : bool) (linhas : DataFrame) :
  concat (get_chunks b f linhas) = concat (get_chunks b' f' linhas).
Proof. by rewrite !concat_get_chunks. Qed.

(** ** Writes *)

Lemma to_sql_replace (df : DataFrame) (nome : string) (w : World) :
  to_sql df nome replace None w =
    (Ok tt, mkWorld (arquivos w) (<[nome := df]> (tabelas w))
                    (trace w ++ [EvToSql nome replace (length df)])).
Proof.
  unfold to_sql, preparar_tabela, bind, log, set_tabelas, insert, exec_insert,
    set_tabelas, ret; simpl.
  destruct df as [|r df]; simpl; [done|].
  by rewrite alter_insert_eq.
Qed.

Lemma to_sql_append (df t0 : DataFrame) (nome : string) (w : World) :
  tabelas w !! nome = Some t0 →
  cabe t0 df = true →
  to_sql df nome append None w =
    (Ok tt, mkWorld (arquivos w) (<[nome := t0 ++ df]> (tabelas w))
                    (trace w ++ [EvToSql nome append (length df)])).
Proof.
  intros Ht Hc.
  unfold to_sql, preparar_tabela, bind, log, set_tabelas, insert, exec_insert,
    set_tabelas, ret; simpl.
  rewrite Ht, Hc.
  destruct df as [|r df]; simpl.
  - by rewrite app_nil_r, insert_id.
  - do 2 f_equal. apply map_eq; intros k.
    destruct (decide (nome = k)) as [<-|Hne].
    + by rewrite lookup_alter_eq, lookup_insert_eq, Ht.
    + by rewrite lookup_alter_ne, lookup_insert_ne.
Qed.

(** A refused append: the write is recorded as attempted, the table is as
    it was. *)
Lemma to_sql_append_recusado (df t0 : DataFrame) (nome : string) (w : World) :
  tabelas w !! nome = Some t0 →
  cabe t0 df = false →
  to_sql df nome append None w =
    (Raise DataError, mkWorld (arquivos w) (tabelas w)
                              (trace w ++ [EvToSql nome append (length df)])).
Proof.
  intros Ht Hc. unfold to_sql, preparar_tabela, bind, log; simpl.
  by rewrite Ht, Hc.
Qed.

Lemma colunas_puras_mono (l l' : DataFrame) :
  colunas_puras l → (∀ r, r ∈ l' → r ∈ l) → colunas_puras l'.
Proof. intros H Hsub c. destruct (H c); [left|right]; auto. Qed.

Lemma cabe_colunas_puras (t df : DataFrame) : colunas_puras (t ++ df) → cabe t df = true.
Proof.
  intros H. unfold cabe. destruct t as [|r0 t]; [done|].
  apply Is_true_true, forallb_True, Forall_forall. intros r Hr.
  apply forallb_True, Forall_forall. intros [c v] Hcv. simpl.
  apply elem_of_map_to_list in Hcv.
  destruct v as [| |s]; [done..|].
  apply Is_true_true. unfold coluna_texto. cbn [existsb].
  apply orb_true_iff. left.
  destruct (H c) as [Ht|Hn].
  - apply Ht, elem_of_app. left. apply list_elem_of_here.
  - assert (e_texto (r !! c) = false) as Hf by (apply Hn, elem_of_app; by right).
    by rewrite Hcv in Hf.
Qed.

Lemma tipos_estaveis_colunas_puras (B : nat) (linhas : DataFrame) :
  tipos_estaveis B linhas = true → colunas_puras linhas.
Proof.
  unfold tipos_estaveis. destruct linhas as [|r0 linhas0] eqn:El.
  { intros _ c. left. intros r Hr. by apply elem_of_nil in Hr. }
  rewrite <-El. intros H. apply andb_true_iff in H as [Hdom Hcols].
  apply Is_true_true, forallb_True in Hdom. apply Is_true_true, forallb_True in Hcols.
  rewrite Forall_forall in Hdom. rewrite Forall_forall in Hcols.
  intros c. destruct (decide (c ∈ dom r0)) as [Hc|Hc].
  - specialize (Hcols c). rewrite elem_of_elements in Hcols. specialize (Hcols Hc).
    apply Is_true_true in Hcols. unfold coluna_estavel in Hcols.
    apply orb_true_iff in Hcols as [Hcols|Hcols];
      [apply orb_true_iff in Hcols as [Hcols|Hcols]|apply andb_true_iff in Hcols as [Hcols _]].
    all: apply Is_true_true, forallb_True in Hcols; rewrite Forall_fmap, Forall_forall in Hcols.
    + right. intros r Hr. specialize (Hcols r Hr). simpl in Hcols.
      rewrite lookup_total_alt in Hcols. by destruct (r !! c) as [[| |]|].
    + left. intros r Hr. specialize (Hcols r Hr). simpl in Hcols.
      rewrite lookup_total_alt in Hcols. by destruct (r !! c) as [[| |]|].
    + right. intros r Hr. specialize (Hcols r Hr). simpl in Hcols.
      rewrite lookup_total_alt in Hcols. by destruct (r !! c) as [[| |]|].
  - right. intros r Hr. specialize (Hdom r Hr). apply bool_decide_spec in Hdom.
    rewrite <-Hdom in Hc. apply not_elem_of_dom in Hc. by rewrite Hc.
Qed.

(** The batches after the first one: each is appended. *)
Lemma for_enumerate_append (nome : string) (cs : list DataFrame) :
  ∀ (i : nat) (t0 : DataFrame) (w : World),
    tabelas w !! nome = Some t0 →
    colunas_puras (t0 ++ concat cs) →
    for_enumerate (S i) cs (λ i chunk,
        to_sql chunk nome (if (0 <? i)%nat then append else replace) None) w =
      (Ok tt, mkWorld (arquivos w) (<[nome := t0 ++ concat cs]> (tabelas w))
                      (trace w ++ (EvToSql nome append ∘ length <$> cs))).
Proof.
  induction cs as [|c cs IH]; intros i t0 w Ht Hp; simpl.
  - unfold ret. rewrite !app_nil_r, insert_id by done. by destruct w.
  - unfold bind at 1. simpl. rewrite (to_sql_append c t0); [|done|].
    2:{ apply cabe_colunas_puras. eapply colunas_puras_mono; [exact Hp|].
        intros r Hr. simpl. rewrite app_assoc. apply elem_of_app. by left. }
    rewrite (IH _ (t0 ++ c)); [|simpl; apply lookup_insert_eq|].
    2:{ simpl in Hp. by rewrite <-app_assoc. }
    simpl. by rewrite insert_insert_eq, <-!app_assoc.
Qed.

(** ** C1: what the Bulk Loader loads, and when *)




(** ** C7: a missing input file stops a loader before it reads or writes *)

(** C7. When the source path of the Bulk Loader names no file,
    [carregar_tabela_csv] raises [FileNotFoundError] and the world is the one
    it started from: no read and no write in the trace, every table as it
    was.  The Join Loader does the same when its result file is missing,
    before it reads even the participant file.  Both hold for any batch
    size. *)
Theorem carregar_arquivo_inexistente
    (nome caminho : string) (config : Config) (chunksize : nat) (w : World) :
  (arquivos w !! caminho = None →
   carregar_tabela_csv nome caminho chunksize w = (Raise (FileNotFoundError caminho), w)) ∧
  (arquivos w !! ARQUIVO_RESULTADOS config = None →
   carregar_tabela_resultados config chunksize w =
     (Raise (FileNotFoundError (ARQUIVO_RESULTADOS config)), w)).
Proof.
  split; intros Hf.
  - unfold carregar_tabela_csv, bind, os_path_exists. rewrite Hf.
    rewrite bool_decide_false by (intros [? ?]; discriminate). done.
  - unfold carregar_tabela_resultados, bind, os_path_exists. rewrite Hf.
    rewrite bool_decide_false by (intros [? ?]; discriminate). done.
Qed.

Lemma carregar_arquivo_inexistente_witness :
  carregar_tabela_csv "participantes" "nao_existe.csv" chunksize_padrao Exemplo.mundo_velho =
    (Raise (FileNotFoundError "nao_existe.csv"), Exemplo.mundo_velho) ∧
  carregar_tabela_resultados Exemplo.config_sem_arquivo chunksize_padrao Exemplo.mundo_velho =
    (Raise (FileNotFoundError "nao_existe.csv"), Exemplo.mundo_velho).
Proof.
  destruct (carregar_arquivo_inexistente "participantes" "nao_existe.csv"
              Exemplo.config_sem_arquivo chunksize_padrao Exemplo.mundo_velho)
    as [Hcsv Hres].
  split.
  - apply Hcsv. reflexivity.
  - apply Hres. reflexivity.
Defined.

(** ** C3: the Load Orchestrator dispatches on the two existence flags *)

Lemma bind_unit_ret_r (m : M unit) (w : World) : (m >> ret tt) w = m w.
Proof. unfold bind, ret. by destruct (m w) as [[e|[]] w']. Qed.

(** C3. What [verificar_carregar] does is determined by the two flags
    "participants table exists" and "results table exists" of the database
    it is given: with both set it returns at once and the world (tables and
    trace of I/O operations) is unchanged, so no write is performed; with
    only the participants table missing it is exactly a run of the Bulk
    Loader on the participant file, with only the results table missing
    exactly a run of the Join Loader, and with both missing the Bulk Loader
    followed by the Join Loader. *)
Theorem verificar_carregar_por_estado (config : Config) (w : World) :
  verificar_carregar config w =
    match bool_decide (is_Some (tabelas w !! TABELA_PARTICIPANTES config)),
          bool_decide (is_Some (tabelas w !! TABELA_RESULTADOS config)) with
    | true, true => (Ok tt, w)
    | false, true =>
        carregar_tabela_csv (TABELA_PARTICIPANTES config)
                            (ARQUIVO_PARTICIPANTES config) chunksize_padrao w
    | true, false => carregar_tabela_resultados config chunksize_padrao w
    | false, false =>
        (carregar_tabela_csv (TABELA_PARTICIPANTES config)
                             (ARQUIVO_PARTICIPANTES config) chunksize_padrao >>
         carregar_tabela_resultados config chunksize_padrao) w
    end.
Proof.
  unfold verificar_carregar, has_table.
  unfold bind at 1. unfold bind at 1.
  destruct (bool_decide (is_Some (tabelas w !! TABELA_PARTICIPANTES config)));
    destruct (bool_decide (is_Some (tabelas w !! TABELA_RESULTADOS config))); simpl.
  - done.
  - unfold bind at 1, ret at 1. done.
  - apply bind_unit_ret_r.
  - done.
Qed.

(** ** C2 and C10: the Join Loader attaches registration numbers by position *)

Lemma lookup_projetar (cols : list string) (r : row) (c : string) :
  c ∈ cols → projetar cols r !! c = r !! c.
Proof.
  intros Hc. unfold projetar. rewrite map_lookup_filter.
  destruct (r !! c) as [x|]; simpl; [|done].
  by rewrite option_guard_True.
Qed.

Lemma lookup_projetar_None (cols : list string) (r : row) (c : string) :
  c ∉ cols → projetar cols r !! c = None.
Proof.
  intros Hc. unfold projetar. rewrite map_lookup_filter.
  destruct (r !! c) as [x|]; simpl; [|done].
  by rewrite option_guard_False.
Qed.

Lemma has_columns_cons (cols : list string) (r : row) (df : DataFrame) :
  has_columns cols (r :: df) = true ↔
  Forall (λ c, is_Some (r !! c)) cols ∧ has_columns cols df = true.
Proof.
  unfold has_columns; simpl. rewrite andb_true_iff.
  apply and_iff_compat_r.
  rewrite <-Is_true_true, forallb_True.
  apply Forall_proper; [|done]. intros c. by rewrite bool_decide_spec.
Qed.

Lemma has_columns_lookup (cols : list string) (df : DataFrame) (r : row) (c : string) :
  has_columns cols df = true → r ∈ df → c ∈ cols → is_Some (r !! c).
Proof.
  induction df as [|r' df IH]; intros H Hr Hc; [by apply elem_of_nil in Hr|].
  apply has_columns_cons in H as [Hh Ht].
  apply elem_of_cons in Hr as [->|Hr]; [|by apply IH].
  by apply (proj1 (Forall_forall _ _) Hh).
Qed.

Lemma has_columns_projetar (cols : list string) (df : DataFrame) :
  has_columns cols df = true → has_columns cols (projetar cols <$> df) = true.
Proof.
  induction df as [|r df IH]; [done|]. rewrite fmap_cons, !has_columns_cons.
  intros [Hh Ht]. split; [|by apply IH].
  apply Forall_forall. intros c Hc. rewrite lookup_projetar by done.
  by apply (proj1 (Forall_forall _ _) Hh).
Qed.

Lemma getitem_has_columns (df : DataFrame) (col : string) (w : World) :
  has_columns [col] df = true →
  getitem df col w = (Ok ((λ r : row, r !!! col) <$> df), w).
Proof.
  intros H. unfold getitem.
  assert (mapM (λ r : row, r !! col) df = Some ((λ r : row, r !!! col) <$> df)) as ->; [|done].
  apply mapM_Some. induction df as [|r df IH]; [constructor|].
  apply has_columns_cons in H as [Hh Ht]. rewrite fmap_cons.
  constructor; [|by apply IH].
  apply Forall_inv in Hh as [x Hx]. by rewrite lookup_total_alt, Hx.
Qed.

Lemma reindex_length (serie : Series) : reindex serie (length serie) = serie.
Proof. unfold reindex. by rewrite Nat.leb_refl, firstn_all. Qed.

Lemma length_com_nan (serie : Series) : length (com_nan serie) = length serie.
Proof. unfold com_nan. destruct (existsb _ _); [done|apply length_fmap]. Qed.

Lemma lookup_reindex_ge (serie : Series) (n i : nat) :
  (length serie ≤ i)%nat → default Null (reindex serie n !! i) = Null.
Proof.
  intros Hi. unfold reindex. destruct (n <=? length serie)%nat eqn:Hn.
  - rewrite lookup_take_ge; [done|]. apply Nat.leb_le in Hn. lia.
  - rewrite lookup_app_r by (rewrite length_com_nan; lia).
    destruct (replicate _ _ !! _) as [c|] eqn:Hc; [|done].
    apply lookup_replicate in Hc as [-> _]. done.
Qed.

Lemma lookup_reindex_take (serie : Series) (n i : nat) :
  (n ≤ length serie)%nat → (i < n)%nat → reindex serie n !! i = serie !! i.
Proof.
  intros Hn Hi. unfold reindex. rewrite (proj2 (Nat.leb_le _ _) Hn).
  by apply lookup_take_lt.
Qed.

Lemma lookup_reindex_lt (serie : Series) (n i : nat) :
  (length serie < n)%nat → (i < length serie)%nat →
  reindex serie n !! i = com_nan serie !! i.
Proof.
  intros Hn Hi. unfold reindex. rewrite (proj2 (Nat.leb_gt _ _) Hn).
  apply lookup_app_l. by rewrite length_com_nan.
Qed.


(** Assignment to a frame that has rows. *)
Lemma lookup_setitem_cons (df : DataFrame) (col : string) (serie : Series) (i : nat) :
  df ≠ [] →
  setitem df col serie !! i =
    (λ r : row, <[col := default Null (reindex serie (length df) !! i)]> r) <$> df !! i.
Proof. destruct df as [|r df]; [done|]. intros _. unfold setitem. by rewrite list_lookup_imap. Qed.

Lemma length_setitem_cons (df : DataFrame) (col : string) (serie : Series) :
  df ≠ [] → length (setitem df col serie) = length df.
Proof. destruct df as [|r df]; [done|]. intros _. unfold setitem. apply length_imap. Qed.

(** Assignment of a Series that has one value per row of the frame. *)
Lemma lookup_setitem (df : DataFrame) (col : string) (serie : Series) (i : nat) :
  length serie = length df →
  setitem df col serie !! i =
    (λ r : row, <[col := default Null (serie !! i)]> r) <$> df !! i.
Proof.
  intros Hlen. destruct df as [|r df].
  - by destruct serie.
  - rewrite lookup_setitem_cons by done. by rewrite <-Hlen, reindex_length.
Qed.

Lemma length_setitem (df : DataFrame) (col : string) (serie : Series) :
  length serie = length df → length (setitem df col serie) = length df.
Proof.
  intros Hlen. destruct df as [|r df].
  - by destruct serie.
  - by apply length_setitem_cons.
Qed.

Lemma for_enumerate_exec_insert (nome : string) (cs : list DataFrame) :
  ∀ (i : nat) (t0 : DataFrame) (w : World),
    tabelas w !! nome = Some t0 →
    for_enumerate i cs (λ _, exec_insert nome) w =
      (Ok tt, mkWorld (arquivos w) (<[nome := t0 ++ concat cs]> (tabelas w)) (trace w)).
Proof.
  induction cs as [|c cs IH]; intros i t0 w Ht; simpl.
  - unfold ret. rewrite app_nil_r, insert_id by done. by destruct w.
  - unfold bind at 1, exec_insert, set_tabelas. simpl.
    rewrite (IH _ (t0 ++ c)) by (simpl; by rewrite lookup_alter_eq, Ht).
    simpl. do 2 f_equal. rewrite <-app_assoc. apply map_eq; intros k.
    destruct (decide (nome = k)) as [<-|Hne].
    + by rewrite !lookup_insert_eq.
    + by rewrite !lookup_insert_ne, lookup_alter_ne.
Qed.

(** A ['replace'] write in batches of [S b] rows leaves the table holding
    the frame. *)
Lemma to_sql_replace_chunksize (df : DataFrame) (nome : string) (b : nat) (w : World) :
  to_sql df nome replace (Some (S b)) w =
    (Ok tt, mkWorld (arquivos w) (<[nome := df]> (tabelas w))
                    (trace w ++ [EvToSql nome replace (length df)])).
Proof.
  unfold to_sql, bind at 1, log. simpl.
  unfold bind at 1, preparar_tabela, set_tabelas at 1. simpl.
  unfold insert. destruct df as [|r df]; [done|].
  rewrite (for_enumerate_exec_insert nome _ 0 []) by (simpl; apply lookup_insert_eq).
  simpl. by rewrite insert_insert_eq, concat_get_chunks.
Qed.

(** The whole effect of the Join Loader when both files are there. *)
Lemma carregar_tabela_resultados_atribui
    (config : Config) (b : nat) (part res : DataFrame) (w : World) :
  arquivos w !! ARQUIVO_RESULTADOS config = Some res →
  arquivos w !! ARQUIVO_PARTICIPANTES config = Some part →
  has_columns ["NU_INSCRICAO"] part = true →
  carregar_tabela_resultados config (S b) w =
    (Ok tt,
     mkWorld (arquivos w)
       (<[TABELA_RESULTADOS config :=
            setitem res "NU_INSCRICAO" ((λ p : row, p !!! "NU_INSCRICAO") <$> part)]>
          (tabelas w))
       (trace w ++ [EvReadCsv (ARQUIVO_PARTICIPANTES config);
                    EvReadCsv (ARQUIVO_RESULTADOS config);
                    EvToSql (TABELA_RESULTADOS config) replace
                      (length (setitem res "NU_INSCRICAO"
                                 ((λ p : row, p !!! "NU_INSCRICAO") <$> part)))])).
Proof.
  intros Hr Hp Hcol.
  unfold carregar_tabela_resultados, bind at 1, os_path_exists.
  rewrite Hr, bool_decide_true by eauto. simpl.
  unfold bind at 1, read_csv_usecols. rewrite Hp.
  unfold bind at 1, log at 1. simpl. rewrite Hcol. unfold ret at 1.
  unfold bind at 1, read_csv. simpl. rewrite Hr.
  unfold bind at 1, log at 1, ret at 1. simpl.
  unfold bind at 1.
  rewrite getitem_has_columns by (by apply has_columns_projetar).
  rewrite to_sql_replace_chunksize. simpl.
  rewrite <-!app_assoc. simpl.
  assert (((λ r : row, r !!! "NU_INSCRICAO") <$> (projetar ["NU_INSCRICAO"] <$> part))
          = (λ p : row, p !!! "NU_INSCRICAO") <$> part) as ->; [|done].
  rewrite <-list_fmap_compose.
  apply list_fmap_ext. intros i p Hi. simpl.
  rewrite !lookup_total_alt, lookup_projetar; [done|]. apply list_elem_of_here.
Qed.






(** Both directions on the sample data: with four result rows against
    three participants the fourth row gets a null number; with two result
    rows the third participant's number is dropped. *)
Example resultados_longo_exemplo :
  let w' := (carregar_tabela_resultados Exemplo.config_longo chunksize_padrao Exemplo.mundo0).2 in
  (λ r : row, r !! "NU_INSCRICAO") <$> default [] (tabelas w' !! "resultados")
    = [Some (Num 1); Some (Num 2); Some (Num 3); Some Null].
Proof. vm_compute. reflexivity. Qed.

Example resultados_curto_exemplo :
  let w' := (carregar_tabela_resultados Exemplo.config_curto chunksize_padrao Exemplo.mundo0).2 in
  (λ r : row, r !! "NU_INSCRICAO") <$> default [] (tabelas w' !! "resultados")
    = [Some (Num 1); Some (Num 2)].
Proof. vm_compute. reflexivity. Qed.

(** Above 2^53 the attached number is the nearest double, not the number of
    the file: 2^53 + 1 becomes 2^53. *)
Example para_float64_exemplo :
  para_float64 (Num (inject_Z (2 ^ 53 + 1))) = Num (inject_Z (2 ^ 53)) ∧
  para_float64 (Num (inject_Z (2 ^ 53))) = Num (inject_Z (2 ^ 53)) ∧
  para_float64 (Num (1 # 2)) = Num (1 # 2) ∧
  para_float64 (Str "190001004661") = Str "190001004661".
Proof. vm_compute. done. Qed.

(** ** The Extractor/Transformer, row by row *)

Lemma bind_Ok_inv {A B} (m : M A) (k : A → M B) (w w' : World) (b : B) :
  bind m k w = (Ok b, w') → ∃ a w1, m w = (Ok a, w1) ∧ k a w1 = (Ok b, w').
Proof.
  unfold bind. destruct (m w) as [[e|a] w1]; [discriminate|]. eauto.
Qed.

Lemma read_sql_query_Ok (w w' : World) (df : DataFrame) :
  read_sql_query w = (Ok df, w') →
  ∃ ps rs, tabelas w !! "participantes" = Some ps ∧
           tabelas w !! "resultados" = Some rs ∧
           has_columns ("NU_INSCRICAO" :: colunas_p) ps = true ∧
           has_columns ("NU_INSCRICAO" :: colunas_r) rs = true ∧
           df = consulta ps rs.
Proof.
  unfold read_sql_query, bind, log. simpl.
  destruct (tabelas w !! "participantes") as [ps|]; [|discriminate].
  destruct (tabelas w !! "resultados") as [rs|]; [|discriminate].
  destruct (has_columns _ ps) eqn:Hp; [|discriminate].
  destruct (has_columns _ rs) eqn:Hr; [|discriminate].
  intros [= <- _]. by exists ps, rs.
Qed.

Lemma dropna_Ok (subset : list string) (df df' : DataFrame) (w w' : World) :
  dropna subset df w = (Ok df', w') →
  df' = filter (λ r : row, forallb (λ c, notna (r !!! c)) subset) df.
Proof.
  unfold dropna. destruct (has_columns subset df); [|discriminate].
  by intros [= <- _].
Qed.

Lemma mean_axis1_Ok (cols : list string) (df : DataFrame) (ms : Series) :
  mean_axis1 cols df = Ok ms → Forall2 (λ r m, mean_row cols r = Ok m) df ms.
Proof.
  revert ms. induction df as [|r df IH]; intros ms; simpl.
  - intros [= <-]. constructor.
  - destruct (mean_row cols r) as [e|m] eqn:Hm; [discriminate|].
    destruct (mean_axis1 cols df) as [e|ms'] eqn:Hms; [discriminate|].
    intros [= <-]. constructor; [done|]. by apply IH.
Qed.

Lemma getitem_Ok (df : DataFrame) (col : string) (s : Series) (w w' : World) :
  getitem df col w = (Ok s, w') → Forall2 (λ (r : row) y, r !! col = Some y) df s.
Proof.
  unfold getitem. destruct (mapM _ df) as [s'|] eqn:Hs; [|discriminate].
  intros [= <- _]. by apply mapM_Some.
Qed.

(** A row of the query: the selected columns of a participant [p] and of a
    result [r] that carry the same registration number, [p] with income
    code A or B. *)
Lemma elem_of_consulta (ps rs : DataFrame) (r0 : row) :
  r0 ∈ consulta ps rs →
  ∃ p r, p ∈ ps ∧ r ∈ rs ∧
         sql_eq (p !!! "NU_INSCRICAO") (r !!! "NU_INSCRICAO") = true ∧
         sql_in (p !!! "Q006") ["A"; "B"] = true ∧
         r0 = projetar colunas_p p ∪ projetar colunas_r r.
Proof.
  unfold consulta. intros H.
  apply list_elem_of_bind in H as (p & H & Hp).
  apply list_elem_of_bind in H as (r & H & Hr).
  destruct (sql_eq _ _ && sql_in _ _) eqn:Hc; [|by apply elem_of_nil in H].
  apply andb_true_iff in Hc as [Heq Hin].
  apply list_elem_of_singleton in H. by exists p, r.
Qed.

Lemma lookup_consulta_p (p r : row) (c : string) :
  c ∈ colunas_p → (projetar colunas_p p ∪ projetar colunas_r r) !! c = p !! c.
Proof.
  intros Hc. rewrite lookup_union, lookup_projetar by done.
  rewrite lookup_projetar_None; [by destruct (p !! c)|].
  revert Hc. unfold colunas_p, colunas_r. rewrite !elem_of_cons, !elem_of_nil.
  intros [->|[->|[->|[->|[]]]]]; intros H; repeat destruct H as [[=]|H]; done.
Qed.

Lemma lookup_consulta_r (p r : row) (c : string) :
  c ∈ colunas_r → (projetar colunas_p p ∪ projetar colunas_r r) !! c = r !! c.
Proof.
  intros Hc. rewrite lookup_union, (lookup_projetar colunas_r) by done.
  rewrite lookup_projetar_None; [by destruct (r !! c)|].
  revert Hc. unfold colunas_p, colunas_r. rewrite !elem_of_cons, !elem_of_nil.
  intros [->|[->|[->|[->|[->|[]]]]]]; intros H; repeat destruct H as [[=]|H]; done.
Qed.

(** What [extrair_processar] returns, one row at a time: a row [r0] of the
    query that passed [dropna], extended by the mean [m] of its four
    objective scores and by the label of its income code [q]. *)
Lemma extrair_processar_linha (w w' : World) (df : DataFrame) (r : row) :
  extrair_processar w = (Ok df, w') →
  r ∈ df →
  ∃ ps rs p rr m q,
    tabelas w !! "participantes" = Some ps ∧ tabelas w !! "resultados" = Some rs ∧
    p ∈ ps ∧ rr ∈ rs ∧
    has_columns ("NU_INSCRICAO" :: colunas_p) ps = true ∧
    has_columns ("NU_INSCRICAO" :: colunas_r) rs = true ∧
    sql_in (p !!! "Q006") ["A"; "B"] = true ∧
    let r0 := projetar colunas_p p ∪ projetar colunas_r rr in
    forallb (λ c, notna (r0 !!! c)) colunas_r = true ∧
    mean_row ["NU_NOTA_CN"; "NU_NOTA_CH"; "NU_NOTA_LC"; "NU_NOTA_MT"] r0 = Ok m ∧
    r0 !! "Q006" = Some q ∧
    r = <["GRUPO_RENDA" := map_dict grupos_renda q]> (<["NOTA_MEDIA_OBJETIVA" := m]> r0).
Proof.
  unfold extrair_processar. intros H Hr.
  apply bind_Ok_inv in H as (df0 & w0 & Hq & H).
  apply bind_Ok_inv in H as (df1 & w1 & Hd & H).
  apply bind_Ok_inv in H as (medias & w2 & Hm & H).
  apply bind_Ok_inv in H as (q006 & w3 & Hg & H).
  unfold ret in H. injection H as <- _.
  apply read_sql_query_Ok in Hq as (ps & rs & Hps & Hrs & Hcp & Hcr & ->).
  apply dropna_Ok in Hd.
  unfold lift in Hm. injection Hm as Hm _. apply mean_axis1_Ok in Hm.
  apply getitem_Ok in Hg.
  pose proof (Forall2_length _ _ _ Hm) as Hlm.
  pose proof (Forall2_length _ _ _ Hg) as Hlg.
  apply list_elem_of_lookup_1 in Hr as [i Hi].
  rewrite lookup_setitem in Hi by (by rewrite length_fmap).
  destruct (setitem df1 "NOTA_MEDIA_OBJETIVA" medias !! i) as [r1|] eqn:H1; [|discriminate].
  injection Hi as <-.
  destruct (Forall2_lookup_l _ _ _ _ _ Hg H1) as (q & Hqi & Hq).
  rewrite lookup_setitem in H1 by done.
  destruct (df1 !! i) as [r0|] eqn:H0; [|discriminate]. injection H1 as <-.
  destruct (Forall2_lookup_l _ _ _ _ _ Hm H0) as (m & Hmi & Hmean).
  rewrite list_lookup_fmap, Hqi. rewrite Hmi in *. simpl in *.
  rewrite lookup_insert_ne in Hq by done.
  apply list_elem_of_lookup_2 in H0. rewrite Hd in H0.
  apply list_elem_of_filter in H0 as [Hna H0].
  apply elem_of_consulta in H0 as (p & rr & Hp & Hrr & _ & Hin & ->).
  exists ps, rs, p, rr, m, q.
  repeat (split; [done|]). split; [by apply Is_true_true|]. done.
Qed.

(** ** C5: no null score survives *)

(** C5. Every row of the frame [extrair_processar] returns has a value that
    is not null in each of the five score columns. *)
Theorem extrair_processar_notas_completas
    (w w' : World) (df : DataFrame) (r : row) (c : string) :
  extrair_processar w = (Ok df, w') →
  r ∈ df →
  c ∈ ["NU_NOTA_CN"; "NU_NOTA_CH"; "NU_NOTA_LC"; "NU_NOTA_MT"; "NU_NOTA_REDACAO"] →
  ∃ v, r !! c = Some v ∧ v ≠ Null.
Proof.
  intros H Hr Hc.
  destruct (extrair_processar_linha _ _ _ _ H Hr)
    as (ps & rs & p & rr & m & q & _ & _ & _ & Hrr & _ & Hcr & _ & Hna & _ & _ & ->).
  destruct (has_columns_lookup _ rs rr c Hcr Hrr) as [v Hv].
  { by apply list_elem_of_further. }
  assert ((projetar colunas_p p ∪ projetar colunas_r rr) !! c = Some v) as H0.
  { by rewrite lookup_consulta_r. }
  apply Is_true_true, forallb_True in Hna.
  apply (proj1 (Forall_forall _ _)) with (x := c) in Hna; [|done].
  rewrite lookup_total_alt, H0 in Hna. simpl in Hna.
  exists v. split.
  - rewrite !lookup_insert_ne; [done| |].
    all: intros <-; repeat (apply elem_of_cons in Hc as [[=]|Hc]); by apply elem_of_nil in Hc.
  - intros ->. done.
Qed.

Lemma extrair_processar_notas_completas_witness :
  ∃ v, Exemplo.linha_analise 0 !! "NU_NOTA_REDACAO" = Some v ∧ v ≠ Null.
Proof.
  apply (extrair_processar_notas_completas Exemplo.mundo_carregado
           (extrair_processar Exemplo.mundo_carregado).2 Exemplo.df_analise
           (Exemplo.linha_analise 0) "NU_NOTA_REDACAO").
  - vm_cast_no_check (@eq_refl _ (extrair_processar Exemplo.mundo_carregado)).
  - apply (list_elem_of_lookup_2 _ 0).
    vm_cast_no_check (@eq_refl _ (Exemplo.df_analise !! 0)).
  - vm_compute. repeat constructor.
Defined.

(** ** C4: the derived mean is the mean of the four objective scores *)

(** Sum of four numbers as [soma] folds it. *)
Lemma soma_quatro (a b c d : Q) :
  (soma [a; b; c; d] / inject_Z (Z.of_nat 4) == (a + b + c + d) / 4)%Q.
Proof. unfold soma. simpl. field. Qed.

(** C4. In every row of the frame [extrair_processar] returns the four
    objective scores are numbers and [NOTA_MEDIA_OBJETIVA] is their sum
    divided by four; [NU_NOTA_REDACAO] takes no part in it.  Scores are
    exact rationals here, so the equality is that of rational numbers. *)
Theorem extrair_processar_media_objetiva
    (w w' : World) (df : DataFrame) (r : row) :
  extrair_processar w = (Ok df, w') →
  r ∈ df →
  ∃ cn ch lc mt m : Q,
    r !! "NU_NOTA_CN" = Some (Num cn) ∧ r !! "NU_NOTA_CH" = Some (Num ch) ∧
    r !! "NU_NOTA_LC" = Some (Num lc) ∧ r !! "NU_NOTA_MT" = Some (Num mt) ∧
    r !! "NOTA_MEDIA_OBJETIVA" = Some (Num m) ∧
    (m == (cn + ch + lc + mt) / 4)%Q.
Proof.
  intros H Hr.
  destruct (extrair_processar_linha _ _ _ _ H Hr)
    as (ps & rs & p & rr & m & q & _ & _ & _ & Hrr & _ & Hcr & _ & Hna & Hmean & _ & ->).
  assert (∀ c, c ∈ colunas_r →
            ∃ v, (projetar colunas_p p ∪ projetar colunas_r rr) !! c = Some v ∧
                 notna v = true) as Hcol.
  { intros c Hc.
    destruct (has_columns_lookup _ rs rr c Hcr Hrr) as [v Hv];
      [by apply list_elem_of_further|].
    exists v. rewrite lookup_consulta_r by done. split; [done|].
    apply Is_true_true, forallb_True in Hna.
    apply (proj1 (Forall_forall _ _)) with (x := c) in Hna; [|done].
    rewrite lookup_total_alt, lookup_consulta_r, Hv in Hna by done.
    by apply Is_true_true. }
  clear Hna.
  set (r0 := projetar colunas_p p ∪ projetar colunas_r rr) in *.
  destruct (Hcol "NU_NOTA_CN") as (v1 & H1 & N1); [unfold colunas_r; set_solver|].
  destruct (Hcol "NU_NOTA_CH") as (v2 & H2 & N2); [unfold colunas_r; set_solver|].
  destruct (Hcol "NU_NOTA_LC") as (v3 & H3 & N3); [unfold colunas_r; set_solver|].
  destruct (Hcol "NU_NOTA_MT") as (v4 & H4 & N4); [unfold colunas_r; set_solver|].
  unfold mean_row in Hmean. cbn [mapM] in Hmean.
  rewrite H1, H2, H3, H4 in Hmean. cbn in Hmean.
  destruct v1 as [|cn|]; [discriminate| |discriminate].
  destruct v2 as [|ch|]; [discriminate| |discriminate].
  destruct v3 as [|lc|]; [discriminate| |discriminate].
  destruct v4 as [|mt|]; [discriminate| |discriminate].
  cbn in Hmean. injection Hmean as <-.
  eexists cn, ch, lc, mt, _.
  split; [by rewrite !lookup_insert_ne|].
  split; [by rewrite !lookup_insert_ne|].
  split; [by rewrite !lookup_insert_ne|].
  split; [by rewrite !lookup_insert_ne|].
  split; [by rewrite lookup_insert_ne, lookup_insert_eq|].
  apply soma_quatro.
Qed.

Lemma extrair_processar_media_objetiva_witness :
  ∃ cn ch lc mt m : Q,
    Exemplo.linha_analise 0 !! "NU_NOTA_CN" = Some (Num cn) ∧
    Exemplo.linha_analise 0 !! "NU_NOTA_CH" = Some (Num ch) ∧
    Exemplo.linha_analise 0 !! "NU_NOTA_LC" = Some (Num lc) ∧
    Exemplo.linha_analise 0 !! "NU_NOTA_MT" = Some (Num mt) ∧
    Exemplo.linha_analise 0 !! "NOTA_MEDIA_OBJETIVA" = Some (Num m) ∧
    (m == (cn + ch + lc + mt) / 4)%Q.
Proof.
  apply (extrair_processar_media_objetiva Exemplo.mundo_carregado
           (extrair_processar Exemplo.mundo_carregado).2 Exemplo.df_analise
           (Exemplo.linha_analise 0)).
  - vm_cast_no_check (@eq_refl _ (extrair_processar Exemplo.mundo_carregado)).
  - apply (list_elem_of_lookup_2 _ 0).
    vm_cast_no_check (@eq_refl _ (Exemplo.df_analise !! 0)).
Defined.

(** The first sample row: scores 500, 520, 480, 600 average to 525. *)
Example media_objetiva_exemplo :
  ∃ m, Exemplo.linha_analise 0 !! "NOTA_MEDIA_OBJETIVA" = Some (Num m) ∧ (m == 525)%Q.
Proof. eexists. split; [vm_compute; reflexivity|]. reflexivity. Qed.

(** ** C6: income codes A and B, and their two labels *)

(** C6. Every row of the frame [extrair_processar] returns has income code
    A or B in [Q006], and its [GRUPO_RENDA] is the label of that code:
    ["Nenhuma Renda"] for A, ["Até 1,3k"] for B. *)
Theorem extrair_processar_grupo_renda
    (w w' : World) (df : DataFrame) (r : row) :
  extrair_processar w = (Ok df, w') →
  r ∈ df →
  (r !! "Q006" = Some (Str "A") ∧ r !! "GRUPO_RENDA" = Some (Str "Nenhuma Renda")) ∨
  (r !! "Q006" = Some (Str "B") ∧ r !! "GRUPO_RENDA" = Some (Str "Até 1,3k")).
Proof.
  intros H Hr.
  destruct (extrair_processar_linha _ _ _ _ H Hr)
    as (ps & rs & p & rr & m & q & _ & _ & _ & _ & _ & _ & Hin & _ & _ & Hq & ->).
  rewrite lookup_consulta_p in Hq by (unfold colunas_p; set_solver).
  rewrite lookup_total_alt, Hq in Hin. simpl in Hin.
  rewrite lookup_insert_eq, !lookup_insert_ne by done.
  rewrite lookup_consulta_p by (unfold colunas_p; set_solver).
  destruct q as [| |s]; [discriminate..|]. simpl in Hin.
  apply bool_decide_eq_true in Hin.
  apply elem_of_cons in Hin as [->|Hin]; [left; by rewrite Hq|].
  apply elem_of_cons in Hin as [->|Hin]; [right; by rewrite Hq|].
  by apply elem_of_nil in Hin.
Qed.

Lemma extrair_processar_grupo_renda_witness :
  (Exemplo.linha_analise 1 !! "Q006" = Some (Str "A") ∧
   Exemplo.linha_analise 1 !! "GRUPO_RENDA" = Some (Str "Nenhuma Renda")) ∨
  (Exemplo.linha_analise 1 !! "Q006" = Some (Str "B") ∧
   Exemplo.linha_analise 1 !! "GRUPO_RENDA" = Some (Str "Até 1,3k")).
Proof.
  apply (extrair_processar_grupo_renda Exemplo.mundo_carregado
           (extrair_processar Exemplo.mundo_carregado).2 Exemplo.df_analise
           (Exemplo.linha_analise 1)).
  - vm_cast_no_check (@eq_refl _ (extrair_processar Exemplo.mundo_carregado)).
  - apply (list_elem_of_lookup_2 _ 1).
    vm_cast_no_check (@eq_refl _ (Exemplo.df_analise !! 1)).
Defined.

(** The scenario with codes A, C, B: the registrant with code C is left out,
    the other two are kept and labelled. *)
Example cenario_A_C_B :
  length Exemplo.df_analise = 2%nat ∧
  Exemplo.linha_analise 0 !! "GRUPO_RENDA" = Some (Str "Nenhuma Renda") ∧
  Exemplo.linha_analise 1 !! "GRUPO_RENDA" = Some (Str "Até 1,3k").
Proof. vm_compute. done. Qed.

(** ** C8: what [carregar_config] validates *)

(** The password is checked: without it (or with an empty one) the call
    ends in [sys.exit(1)] after printing the message that names [DB_PASS]. *)
Lemma carregar_config_sem_senha (environ : gmap string string) (porta : Z) :
  py_int (os_getenv environ "DB_PORT") = Ok porta →
  environ !! "DB_PASS" = None ∨ environ !! "DB_PASS" = Some "" →
  carregar_config environ = (Raise (SystemExit 1), mensagens_senha).
Proof.
  intros Hp Hs. unfold carregar_config. rewrite Hp.
  assert (truthy (os_getenv environ "DB_PASS") = false) as Ht.
  { unfold os_getenv. by destruct Hs as [-> | ->]. }
  assert (∀ config : gmap string pyval,
            config !! "DB_PASS" = Some (os_getenv environ "DB_PASS") →
            truthy (config !!! "DB_PASS") = false) as Hc.
  { intros config Hl. by rewrite lookup_total_alt, Hl. }
  rewrite Hc; [done|]. reflexivity.
Qed.

(** Nothing else is: with a port that parses and a password, the dictionary
    is returned whatever else is missing, and nothing is printed. *)
Lemma carregar_config_so_valida_senha (environ : gmap string string) (porta : Z) (senha : string) :
  py_int (os_getenv environ "DB_PORT") = Ok porta →
  environ !! "DB_PASS" = Some senha → senha ≠ "" →
  ∃ config, carregar_config environ = (Ok config, []) ∧
            ∀ k, k ∈ ["DB_HOST"; "DB_NAME"; "DB_USER"; "ARQUIVO_PARTICIPANTES";
                      "ARQUIVO_RESULTADOS"; "TABELA_PARTICIPANTES"; "TABELA_RESULTADOS"] →
                 config !! k = Some (os_getenv environ k).
Proof.
  intros Hp Hs Hne. unfold carregar_config. rewrite Hp.
  set (config := list_to_map _).
  assert (config !! "DB_PASS" = Some (PyStr senha)) as Hl.
  { transitivity (Some (os_getenv environ "DB_PASS")); [reflexivity|].
    unfold os_getenv. by rewrite Hs. }
  rewrite lookup_total_alt, Hl. simpl. rewrite bool_decide_false by done. simpl.
  exists config. split; [done|].
  intros k Hk. subst config.
  repeat (apply elem_of_cons in Hk as [->|Hk]; [reflexivity|]).
  by apply elem_of_nil in Hk.
Qed.

(** C8 (what the code does at the failing input). With every variable set
    except [DB_HOST], [carregar_config] returns the dictionary, its
    [DB_HOST] entry [None]; it does not exit and prints nothing. *)
Theorem carregar_config_sem_DB_HOST :
  ∃ config, carregar_config (delete "DB_HOST" Exemplo.environ0) = (Ok config, []) ∧
            config !! "DB_HOST" = Some PyNone.
Proof.
  destruct (carregar_config_so_valida_senha (delete "DB_HOST" Exemplo.environ0)
              5432 "segredo") as (config & Hc & Hk); [reflexivity..|done|].
  exists config. split; [done|].
  rewrite Hk by apply list_elem_of_here. reflexivity.
Qed.

(** Without [DB_PORT] the call ends in the [TypeError] of [int(None)],
    before the password is looked at and without any message. *)
Example carregar_config_sem_DB_PORT :
  carregar_config (delete "DB_PORT" Exemplo.environ0) = (Raise TypeError, []).
Proof. reflexivity. Qed.

Example carregar_config_sem_DB_PASS :
  carregar_config (delete "DB_PASS" Exemplo.environ0) = (Raise (SystemExit 1), mensagens_senha).
Proof. by apply (carregar_config_sem_senha _ 5432); [|left]. Qed.

(** ** C9: the table names the components use *)

(** The query reads the relation called [participantes], whatever the
    configuration calls its participants table. *)
Lemma extrair_processar_sem_participantes (w : World) :
  tabelas w !! "participantes" = None →
  (extrair_processar w).1 = Raise (ProgrammingError "participantes").
Proof.
  intros H. unfold extrair_processar, bind, read_sql_query, bind, log. simpl.
  by rewrite H.
Qed.

(** C9 (what the code does at the failing input). With the tables
    configured as [tb_participantes] and [tb_resultados] and an empty
    database, the orchestrator loads both tables under the configured names,
    and the Extractor/Transformer then fails: its query asks for the
    relation [participantes], which does not exist. *)
Theorem extrair_processar_ignora_nomes_configurados :
  (verificar_carregar Exemplo.config_tb Exemplo.mundo0).1 = Ok tt ∧
  let w1 := (verificar_carregar Exemplo.config_tb Exemplo.mundo0).2 in
  dom (tabelas w1) = {[ "tb_participantes"; "tb_resultados" ]} ∧
  (extrair_processar w1).1 = Raise (ProgrammingError "participantes").
Proof.
  split; [vm_compute; reflexivity|]. simpl.
  split; [vm_compute; reflexivity|].
  apply extrair_processar_sem_participantes. vm_compute. reflexivity.
Qed.

(** * Further properties of the loaders, the orchestrator, the extractor and
      the configuration *)

(** ** The Bulk Loader: batches and re-runs *)

Lemma get_chunks_length_le (b : nat) (f : bool) (linhas : DataFrame) :
  Forall (λ c : DataFrame, (length c ≤ S b)%nat) (get_chunks b f linhas).
Proof.
  funelim (get_chunks b f linhas); simp get_chunks.
  all: repeat (apply Forall_cons; split); try apply Forall_nil; try assumption.
  all: rewrite ?length_take; simpl; lia.
Qed.

Lemma get_chunks_rest_nonempty (b : nat) (linhas : DataFrame) :
  Forall (λ c : DataFrame, (1 ≤ length c)%nat) (get_chunks b false linhas).
Proof.
  remember false as f eqn:Hf.
  funelim (get_chunks b f linhas); simp get_chunks; try discriminate.
  all: repeat (apply Forall_cons; split); try apply Forall_nil; eauto.
  all: simpl; lia.
Qed.

Lemma get_chunks_first_tail (b : nat) (linhas : DataFrame) (c : DataFrame) (cs : list DataFrame) :
  get_chunks b true linhas = c :: cs →
  Forall (λ c : DataFrame, (1 ≤ length c)%nat) cs.
Proof.
  destruct linhas as [|l ls]; simp get_chunks.
  - intros [= <- <-]. constructor.
  - intros [= <- <-]. apply get_chunks_rest_nonempty.
Qed.

Lemma length_concat_sum {A} (ls : list (list A)) :
  length (concat ls) = sum_list (length <$> ls).
Proof.
  induction ls as [|l ls IH]; [done|].
  rewrite concat_cons, length_app, fmap_cons, IH. done.
Qed.

(** The whole effect of the Bulk Loader on an existing file. *)
Lemma carregar_tabela_csv_efeito
    (b : nat) (nome caminho : string) (linhas : DataFrame) (w : World) :
  arquivos w !! caminho = Some linhas →
  tipos_estaveis (S b) linhas = true →
  ∃ c cs, get_chunks b true linhas = c :: cs ∧
    carregar_tabela_csv nome caminho (S b) w =
      (Ok tt, mkWorld (arquivos w) (<[nome := linhas]> (tabelas w))
                (trace w ++ EvReadCsv caminho :: EvToSql nome replace (length c)
                         :: (EvToSql nome append <$> (length <$> cs)))).
Proof.
  intros Hf Hest. apply tipos_estaveis_colunas_puras in Hest.
  destruct (get_chunks_first b linhas) as (c & cs & Hcs).
  exists c, cs. split; [done|].
  unfold carregar_tabela_csv, bind at 1, os_path_exists.
  rewrite Hf, bool_decide_true by eauto. simpl.
  unfold bind at 1, read_csv_chunks. rewrite Hf.
  unfold bind at 1, log, ret. simpl.
  pose proof (concat_get_chunks b true linhas) as Hcat.
  rewrite Hcs in *. simpl in Hcat.
  cbn [for_enumerate]. unfold bind at 1. simpl (0 <? 0)%nat. cbv iota.
  rewrite to_sql_replace.
  rewrite (for_enumerate_append nome cs 0 c);
    [|simpl; apply lookup_insert_eq|by rewrite Hcat].
  simpl. rewrite insert_insert_eq, Hcat.
  rewrite <-!app_assoc. simpl. by rewrite list_fmap_compose.
Qed.

(** X1. The writes of one Bulk Loader run on a file whose columns keep
    one type across the batches ([tipos_estaveis]), as the trace records
    them: one ['replace'] write followed by ['append'] writes, none of more
    than [B] rows, no ['append'] of an empty batch, and the batch sizes add
    up to the number of rows of the file. *)
Theorem carregar_tabela_csv_lotes
    (B : nat) (nome caminho : string) (linhas : DataFrame) (w : World) :
  (1 ≤ B)%nat →
  arquivos w !! caminho = Some linhas →
  tipos_estaveis B linhas = true →
  ∃ n ns,
    trace (carregar_tabela_csv nome caminho B w).2 =
      trace w ++ EvReadCsv caminho :: EvToSql nome replace n
              :: (EvToSql nome append <$> ns) ∧
    (n ≤ B)%nat ∧
    Forall (λ k, (1 ≤ k ≤ B)%nat) ns ∧
    (n + sum_list ns = length linhas)%nat.
Proof.
  intros HB Hf Hest. destruct B as [|b]; [lia|].
  destruct (carregar_tabela_csv_efeito b nome caminho linhas w Hf Hest) as (c & cs & Hcs & ->).
  exists (length c), (length <$> cs). simpl. split; [done|].
  pose proof (get_chunks_length_le b true linhas) as Hle.
  pose proof (get_chunks_first_tail b linhas c cs Hcs) as Hne.
  pose proof (concat_get_chunks b true linhas) as Hcat.
  rewrite Hcs in Hle, Hcat. apply Forall_cons in Hle as [Hc Hle].
  split; [done|]. split.
  - apply Forall_fmap, Forall_forall. intros x Hx. simpl.
    split; [by apply (proj1 (Forall_forall _ _) Hne)|by apply (proj1 (Forall_forall _ _) Hle)].
  - rewrite <-Hcat. simpl. rewrite length_app, length_concat_sum. done.
Qed.

Lemma carregar_tabela_csv_lotes_witness :
  ∃ n ns,
    trace (carregar_tabela_csv "participantes" "participantes.csv" 2 Exemplo.mundo_velho).2 =
      trace Exemplo.mundo_velho ++ EvReadCsv "participantes.csv"
        :: EvToSql "participantes" replace n :: (EvToSql "participantes" append <$> ns) ∧
    (n ≤ 2)%nat ∧
    Forall (λ k, (1 ≤ k ≤ 2)%nat) ns ∧
    (n + sum_list ns = length Exemplo.participantes_csv)%nat.
Proof.
  apply (carregar_tabela_csv_lotes 2 "participantes" "participantes.csv"
           Exemplo.participantes_csv Exemplo.mundo_velho).
  - lia.
  - reflexivity.
  - vm_compute. reflexivity.
Defined.

(** X2. Loading the same file (one whose columns keep one type across the
    batches, [tipos_estaveis]) twice in a row leaves the database as loading
    it once: the second run starts with a ['replace'], so no row is
    duplicated. *)
Theorem carregar_tabela_csv_duas_vezes
    (B : nat) (nome caminho : string) (linhas : DataFrame) (w : World) :
  (1 ≤ B)%nat →
  arquivos w !! caminho = Some linhas →
  tipos_estaveis B linhas = true →
  ((carregar_tabela_csv nome caminho B >> carregar_tabela_csv nome caminho B) w).1 = Ok tt ∧
  tabelas ((carregar_tabela_csv nome caminho B >> carregar_tabela_csv nome caminho B) w).2 =
    tabelas (carregar_tabela_csv nome caminho B w).2.
Proof.
  intros HB Hf Hest. destruct B as [|b]; [lia|].
  destruct (carregar_tabela_csv_efeito b nome caminho linhas w Hf Hest) as (c & cs & _ & H1).
  unfold bind. rewrite H1.
  match goal with |- context [carregar_tabela_csv _ _ _ ?w1] =>
    destruct (carregar_tabela_csv_efeito b nome caminho linhas w1 Hf Hest) as (c' & cs' & _ & ->)
  end.
  simpl. split; [done|]. apply insert_insert_eq.
Qed.

Lemma carregar_tabela_csv_duas_vezes_witness :
  ((carregar_tabela_csv "participantes" "participantes.csv" 2 >>
    carregar_tabela_csv "participantes" "participantes.csv" 2) Exemplo.mundo_velho).1 = Ok tt ∧
  tabelas ((carregar_tabela_csv "participantes" "participantes.csv" 2 >>
            carregar_tabela_csv "participantes" "participantes.csv" 2) Exemplo.mundo_velho).2 =
    tabelas (carregar_tabela_csv "participantes" "participantes.csv" 2 Exemplo.mundo_velho).2.
Proof.
  apply (carregar_tabela_csv_duas_vezes 2 "participantes" "participantes.csv"
           Exemplo.participantes_csv Exemplo.mundo_velho).
  - lia.
  - reflexivity.
  - vm_compute. reflexivity.
Defined.

(** X3. A batch size of zero is refused by [read_csv] before the file is
    read: the Bulk Loader raises [ValueError] and the world is unchanged. *)
Theorem carregar_tabela_csv_chunksize_zero
    (nome caminho : string) (linhas : DataFrame) (w : World) :
  arquivos w !! caminho = Some linhas →
  carregar_tabela_csv nome caminho 0 w = (Raise ValueError, w).
Proof.
  intros Hf. unfold carregar_tabela_csv, bind, os_path_exists.
  by rewrite Hf, bool_decide_true by eauto.
Qed.

Lemma carregar_tabela_csv_chunksize_zero_witness :
  carregar_tabela_csv "participantes" "participantes.csv" 0 Exemplo.mundo_velho =
    (Raise ValueError, Exemplo.mundo_velho).
Proof.
  apply (carregar_tabela_csv_chunksize_zero "participantes" "participantes.csv"
           Exemplo.participantes_csv Exemplo.mundo_velho).
  reflexivity.
Defined.

(** ** The Join Loader: the participant file, and re-runs *)

(** X4. The Join Loader checks only the result file beforehand; when the
    participant file is the one missing, the [read_csv] of the registration
    numbers raises [FileNotFoundError] for it, before anything is read or
    written. *)
Theorem carregar_tabela_resultados_sem_participantes
    (config : Config) (chunksize : nat) (res : DataFrame) (w : World) :
  arquivos w !! ARQUIVO_RESULTADOS config = Some res →
  arquivos w !! ARQUIVO_PARTICIPANTES config = None →
  carregar_tabela_resultados config chunksize w =
    (Raise (FileNotFoundError (ARQUIVO_PARTICIPANTES config)), w).
Proof.
  intros Hr Hp. unfold carregar_tabela_resultados, bind at 1, os_path_exists.
  rewrite Hr, bool_decide_true by eauto. simpl.
  unfold bind at 1, read_csv_usecols. by rewrite Hp.
Qed.

Lemma carregar_tabela_resultados_sem_participantes_witness :
  carregar_tabela_resultados
    (mkConfig "localhost" 5432 "enem" "postgres" "segredo"
              "nao_existe.csv" "resultados.csv" "participantes" "resultados")
    chunksize_padrao Exemplo.mundo_velho =
    (Raise (FileNotFoundError "nao_existe.csv"), Exemplo.mundo_velho).
Proof.
  apply (carregar_tabela_resultados_sem_participantes
           (mkConfig "localhost" 5432 "enem" "postgres" "segredo"
                     "nao_existe.csv" "resultados.csv" "participantes" "resultados")
           chunksize_padrao Exemplo.resultados_csv Exemplo.mundo_velho).
  - reflexivity.
  - reflexivity.
Defined.

(** X5. When the participant file has no [NU_INSCRICAO] column the Join
    Loader ends in the [ValueError] of [usecols]; the result file is not
    read and no table is touched. *)
Theorem carregar_tabela_resultados_sem_coluna
    (config : Config) (chunksize : nat) (part res : DataFrame) (w : World) :
  arquivos w !! ARQUIVO_RESULTADOS config = Some res →
  arquivos w !! ARQUIVO_PARTICIPANTES config = Some part →
  has_columns ["NU_INSCRICAO"] part = false →
  (carregar_tabela_resultados config chunksize w).1 = Raise ValueError ∧
  tabelas (carregar_tabela_resultados config chunksize w).2 = tabelas w ∧
  trace (carregar_tabela_resultados config chunksize w).2 =
    trace w ++ [EvReadCsv (ARQUIVO_PARTICIPANTES config)].
Proof.
  intros Hr Hp Hcol.
  assert (carregar_tabela_resultados config chunksize w =
            (Raise ValueError,
             mkWorld (arquivos w) (tabelas w)
                     (trace w ++ [EvReadCsv (ARQUIVO_PARTICIPANTES config)]))) as ->; [|done].
  unfold carregar_tabela_resultados, bind at 1, os_path_exists.
  rewrite Hr, bool_decide_true by eauto. simpl.
  unfold bind at 1, read_csv_usecols. rewrite Hp.
  unfold bind at 1, log. simpl. by rewrite Hcol.
Qed.

Lemma carregar_tabela_resultados_sem_coluna_witness :
  let config := mkConfig "localhost" 5432 "enem" "postgres" "segredo"
                         "resultados.csv" "resultados.csv" "participantes" "resultados" in
  (carregar_tabela_resultados config chunksize_padrao Exemplo.mundo_velho).1 = Raise ValueError ∧
  tabelas (carregar_tabela_resultados config chunksize_padrao Exemplo.mundo_velho).2 =
    tabelas Exemplo.mundo_velho ∧
  trace (carregar_tabela_resultados config chunksize_padrao Exemplo.mundo_velho).2 =
    trace Exemplo.mundo_velho ++ [EvReadCsv "resultados.csv"].
Proof.
  apply (carregar_tabela_resultados_sem_coluna
           (mkConfig "localhost" 5432 "enem" "postgres" "segredo"
                     "resultados.csv" "resultados.csv" "participantes" "resultados")
           chunksize_padrao Exemplo.resultados_csv Exemplo.resultados_csv
           Exemplo.mundo_velho).
  - reflexivity.
  - reflexivity.
  - reflexivity.
Defined.



(** ** The Load Orchestrator: after a run *)

Lemma preparar_tabela_Ok (df : DataFrame) (nome : string) (modo : if_exists) (w w1 : World) :
  preparar_tabela df nome modo w = (Ok tt, w1) →
  is_Some (tabelas w1 !! nome) ∧
  ∀ k, is_Some (tabelas w !! k) → is_Some (tabelas w1 !! k).
Proof.
  assert (∀ t : DataFrame,
            is_Some (<[nome := t]> (tabelas w) !! nome) ∧
            ∀ k, is_Some (tabelas w !! k) → is_Some (<[nome := t]> (tabelas w) !! k)) as Hins.
  { intros t. split; [rewrite lookup_insert_eq; eauto|].
    intros k Hk. destruct (decide (nome = k)) as [<-|];
      [rewrite lookup_insert_eq; eauto|by rewrite lookup_insert_ne]. }
  unfold preparar_tabela, set_tabelas. destruct modo.
  - intros [= <-]. apply Hins.
  - destruct (tabelas w !! nome) as [t|] eqn:Hn.
    + destruct (cabe t df); [|discriminate]. intros [= <-]. rewrite Hn. eauto.
    + intros [= <-]. apply Hins.
Qed.

Lemma insert_Ok (nome : string) (df : DataFrame) (chunksize : option nat) (w w' : World) :
  is_Some (tabelas w !! nome) →
  insert nome df chunksize w = (Ok tt, w') →
  is_Some (tabelas w' !! nome) ∧
  ∀ k, is_Some (tabelas w !! k) → is_Some (tabelas w' !! k).
Proof.
  intros [t0 Ht0]. unfold insert.
  destruct df as [|r df].
  { unfold ret. intros [= <-]. split; [rewrite Ht0; eauto|done]. }
  destruct chunksize as [[|b]|].
  - discriminate.
  - rewrite (for_enumerate_exec_insert nome _ 0 t0) by done. intros [= <-]. simpl.
    split; [rewrite lookup_insert_eq; eauto|].
    intros k Hk. destruct (decide (nome = k)) as [<-|];
      [rewrite lookup_insert_eq; eauto|by rewrite lookup_insert_ne].
  - unfold exec_insert, set_tabelas. intros [= <-]. simpl.
    split; [rewrite lookup_alter_eq, Ht0; eauto|].
    intros k Hk. destruct (decide (nome = k)) as [<-|];
      [rewrite lookup_alter_eq, Ht0; eauto|rewrite lookup_alter_ne by done; auto].
Qed.

Lemma to_sql_Ok (df : DataFrame) (nome : string) (modo : if_exists)
    (chunksize : option nat) (w w' : World) :
  to_sql df nome modo chunksize w = (Ok tt, w') →
  is_Some (tabelas w' !! nome) ∧
  ∀ k, is_Some (tabelas w !! k) → is_Some (tabelas w' !! k).
Proof.
  unfold to_sql. intros H.
  apply bind_Ok_inv in H as ([] & w0 & H0 & H).
  apply bind_Ok_inv in H as ([] & w1 & H1 & H).
  unfold log in H0. injection H0 as <-.
  apply preparar_tabela_Ok in H1 as [Hn1 Hk1]. simpl in Hk1.
  apply insert_Ok in H as [Hn Hk]; [|done].
  split; [done|]. auto.
Qed.

Lemma for_enumerate_to_sql_Ok (nome : string) (cs : list DataFrame) :
  ∀ (i : nat) (w w' : World),
    for_enumerate i cs (λ i chunk,
        to_sql chunk nome (if (0 <? i)%nat then append else replace) None) w = (Ok tt, w') →
    (cs ≠ [] → is_Some (tabelas w' !! nome)) ∧
    ∀ k, is_Some (tabelas w !! k) → is_Some (tabelas w' !! k).
Proof.
  induction cs as [|c cs IH]; intros i w w'; simpl.
  - unfold ret. intros [= <-]. done.
  - intros H. apply bind_Ok_inv in H as ([] & w1 & H1 & H2).
    apply to_sql_Ok in H1 as [Hn Hk]. apply IH in H2 as [_ Hk2].
    split; [intros _|]; auto.
Qed.

Lemma carregar_tabela_csv_Ok (nome caminho : string) (chunksize : nat) (w w' : World) :
  carregar_tabela_csv nome caminho chunksize w = (Ok tt, w') →
  is_Some (tabelas w' !! nome) ∧
  ∀ k, is_Some (tabelas w !! k) → is_Some (tabelas w' !! k).
Proof.
  unfold carregar_tabela_csv. intros H.
  apply bind_Ok_inv in H as (existe & w1 & H1 & H).
  unfold os_path_exists in H1. injection H1 as <- <-.
  destruct (bool_decide _) eqn:He; simpl in H; [|discriminate].
  apply bool_decide_eq_true in He as [linhas Hl].
  apply bind_Ok_inv in H as (chunks & w2 & H2 & H).
  unfold read_csv_chunks in H2. destruct chunksize as [|b]; [discriminate|].
  rewrite Hl in H2. unfold bind, log, ret in H2. simpl in H2. injection H2 as <- <-.
  apply for_enumerate_to_sql_Ok in H as [Hn Hk]. simpl in *.
  split; [|done]. apply Hn.
  destruct (get_chunks_first b linhas) as (c & cs & ->). done.
Qed.

Lemma carregar_tabela_resultados_Ok (config : Config) (chunksize : nat) (w w' : World) :
  carregar_tabela_resultados config chunksize w = (Ok tt, w') →
  is_Some (tabelas w' !! TABELA_RESULTADOS config) ∧
  ∀ k, is_Some (tabelas w !! k) → is_Some (tabelas w' !! k).
Proof.
  unfold carregar_tabela_resultados. intros H.
  apply bind_Ok_inv in H as (existe & w1 & H1 & H).
  unfold os_path_exists in H1. injection H1 as <- <-.
  destruct (bool_decide _); simpl in H; [|discriminate].
  apply bind_Ok_inv in H as (df_i & w2 & H2 & H).
  apply bind_Ok_inv in H as (df_r & w3 & H3 & H).
  apply bind_Ok_inv in H as (insc & w4 & H4 & H).
  assert (tabelas w2 = tabelas w) as E2.
  { unfold read_csv_usecols in H2. destruct (arquivos w !! _); [|discriminate].
    unfold bind, log in H2. simpl in H2.
    destruct (has_columns _ _); [|discriminate]. by injection H2 as <- <-. }
  assert (tabelas w3 = tabelas w2) as E3.
  { unfold read_csv in H3. destruct (arquivos w2 !! _); [|discriminate].
    unfold bind, log, ret in H3. simpl in H3. by injection H3 as <- <-. }
  assert (w4 = w3) as ->.
  { unfold getitem in H4. destruct (mapM _ _); [|discriminate]. by injection H4. }
  apply to_sql_Ok in H as [Hn Hk]. rewrite E3, E2 in Hk. done.
Qed.

(** X7. After a run of the orchestrator that returned normally both
    configured tables exist, so running it again on the resulting database
    returns at once and changes nothing (no read, no write). *)
Theorem verificar_carregar_segunda_vez (config : Config) (w w' : World) :
  verificar_carregar config w = (Ok tt, w') →
  is_Some (tabelas w' !! TABELA_PARTICIPANTES config) ∧
  is_Some (tabelas w' !! TABELA_RESULTADOS config) ∧
  verificar_carregar config w' = (Ok tt, w').
Proof.
  intros H.
  assert (is_Some (tabelas w' !! TABELA_PARTICIPANTES config) ∧
          is_Some (tabelas w' !! TABELA_RESULTADOS config)) as [Hp Hr].
  { revert H. unfold verificar_carregar, has_table.
    unfold bind at 1. unfold bind at 1.
    destruct (bool_decide (is_Some (tabelas w !! TABELA_PARTICIPANTES config))) eqn:Ep;
      destruct (bool_decide (is_Some (tabelas w !! TABELA_RESULTADOS config))) eqn:Er;
      simpl; intros H.
    - unfold ret in H. injection H as <-.
      by apply bool_decide_eq_true in Ep, Er.
    - apply bind_Ok_inv in H as ([] & w1 & H1 & H). unfold ret in H1. injection H1 as <-.
      apply carregar_tabela_resultados_Ok in H as [Hn Hk].
      apply bool_decide_eq_true in Ep. auto.
    - apply bind_Ok_inv in H as ([] & w1 & H1 & H). unfold ret in H. injection H as <-.
      apply carregar_tabela_csv_Ok in H1 as [Hn Hk].
      apply bool_decide_eq_true in Er. auto.
    - apply bind_Ok_inv in H as ([] & w1 & H1 & H).
      apply carregar_tabela_csv_Ok in H1 as [Hn Hk].
      apply carregar_tabela_resultados_Ok in H as [Hn2 Hk2]. auto. }
  split; [done|]. split; [done|].
  unfold verificar_carregar, has_table, bind.
  by rewrite !bool_decide_true.
Qed.

Lemma verificar_carregar_segunda_vez_witness :
  is_Some (tabelas Exemplo.mundo_carregado !! "participantes") ∧
  is_Some (tabelas Exemplo.mundo_carregado !! "resultados") ∧
  verificar_carregar Exemplo.config0 Exemplo.mundo_carregado =
    (Ok tt, Exemplo.mundo_carregado).
Proof.
  apply (verificar_carregar_segunda_vez Exemplo.config0 Exemplo.mundo0
           Exemplo.mundo_carregado).
  vm_cast_no_check (@eq_refl _ (verificar_carregar Exemplo.config0 Exemplo.mundo0)).
Defined.

(** X8. With the participants table missing and the participant file
    missing too, the orchestrator ends in [FileNotFoundError] for that file
    and the world is unchanged: the Join Loader is not started, even when
    the results table is missing as well and its files are there. *)
Theorem verificar_carregar_sem_arquivo_participantes (config : Config) (w : World) :
  tabelas w !! TABELA_PARTICIPANTES config = None →
  arquivos w !! ARQUIVO_PARTICIPANTES config = None →
  verificar_carregar config w =
    (Raise (FileNotFoundError (ARQUIVO_PARTICIPANTES config)), w).
Proof.
  intros Ht Hf. unfold verificar_carregar, has_table.
  unfold bind at 1. unfold bind at 1. rewrite Ht.
  rewrite (bool_decide_false (is_Some None)) by (intros [? ?]; discriminate). simpl.
  unfold bind at 1, carregar_tabela_csv, bind at 1, os_path_exists. rewrite Hf.
  rewrite (bool_decide_false (is_Some None)) by (intros [? ?]; discriminate). done.
Qed.

Lemma verificar_carregar_sem_arquivo_participantes_witness :
  verificar_carregar
    (mkConfig "localhost" 5432 "enem" "postgres" "segredo"
              "nao_existe.csv" "resultados.csv" "participantes" "resultados")
    Exemplo.mundo0 =
    (Raise (FileNotFoundError "nao_existe.csv"), Exemplo.mundo0).
Proof.
  apply (verificar_carregar_sem_arquivo_participantes
           (mkConfig "localhost" 5432 "enem" "postgres" "segredo"
                     "nao_existe.csv" "resultados.csv" "participantes" "resultados")
           Exemplo.mundo0).
  - reflexivity.
  - reflexivity.
Defined.

(** ** The Extractor/Transformer: what it reads, returns, and leaves alone *)

Lemma bind_snd_puro {A B} (m : M A) (k : A → M B) (w : World) :
  (∀ a w1, (k a w1).2 = w1) → (bind m k w).2 = (m w).2.
Proof. intros Hk. unfold bind. destruct (m w) as [[e|a] w1]; [done|]. apply Hk. Qed.

Lemma dropna_puro (subset : list string) (df : DataFrame) (w : World) :
  (dropna subset df w).2 = w.
Proof. unfold dropna. by destruct (has_columns subset df). Qed.

Lemma getitem_puro (df : DataFrame) (col : string) (w : World) :
  (getitem df col w).2 = w.
Proof. unfold getitem. by destruct (mapM _ df). Qed.

(** X9. [extrair_processar] only reads: whatever it returns or raises, the
    files and the tables are as before and the trace has grown by exactly
    the one query on the relations [participantes] and [resultados]. *)
Theorem extrair_processar_so_le (w : World) :
  (extrair_processar w).2 =
    mkWorld (arquivos w) (tabelas w)
            (trace w ++ [EvQuery ["participantes"; "resultados"]]).
Proof.
  unfold extrair_processar.
  rewrite bind_snd_puro.
  - unfold read_sql_query, bind, log. simpl.
    destruct (tabelas w !! "participantes") as [ps|]; [|done].
    destruct (tabelas w !! "resultados") as [rs|]; [|done].
    destruct (has_columns _ ps); [|done]. by destruct (has_columns _ rs).
  - intros df0 w1. rewrite bind_snd_puro; [apply dropna_puro|].
    intros df1 w2. rewrite bind_snd_puro; [done|].
    intros ms w3. rewrite bind_snd_puro; [apply getitem_puro|]. done.
Qed.

(** X10. When the database has no relation [participantes], or none called
    [resultados], [extrair_processar] raises the database error for the
    first one missing. *)
Theorem extrair_processar_sem_tabela (w : World) :
  tabelas w !! "participantes" = None ∨ tabelas w !! "resultados" = None →
  (extrair_processar w).1 =
    Raise (ProgrammingError
             (match tabelas w !! "participantes" with
              | Some _ => "resultados"
              | None => "participantes"
              end)).
Proof.
  intros H. unfold extrair_processar, bind at 1, read_sql_query, bind, log. simpl.
  destruct (tabelas w !! "participantes") as [ps|]; [|done].
  destruct H as [H|H]; [discriminate|]. by rewrite H.
Qed.

Lemma extrair_processar_sem_tabela_witness :
  (extrair_processar Exemplo.mundo_velho).1 =
    Raise (ProgrammingError
             (match tabelas Exemplo.mundo_velho !! "participantes" with
              | Some _ => "resultados"
              | None => "participantes"
              end)).
Proof.
  apply (extrair_processar_sem_tabela Exemplo.mundo_velho).
  right. reflexivity.
Defined.

Lemma dom_projetar (cols : list string) (r : row) :
  Forall (λ c, is_Some (r !! c)) cols →
  dom (projetar cols r) = list_to_set cols.
Proof.
  intros H. apply set_eq. intros k.
  rewrite elem_of_dom, elem_of_list_to_set.
  destruct (decide (k ∈ cols)) as [Hk|Hk].
  - rewrite lookup_projetar by done. split; [done|intros _].
    by apply (proj1 (Forall_forall _ _) H).
  - rewrite lookup_projetar_None by done. split; [by intros [? ?]|done].
Qed.

Lemma has_columns_Forall (cols : list string) (df : DataFrame) (r : row) :
  has_columns cols df = true → r ∈ df → Forall (λ c, is_Some (r !! c)) cols.
Proof.
  intros H Hr. apply Forall_forall. intros c Hc. by eapply has_columns_lookup.
Qed.

(** X11. Every row of the frame [extrair_processar] returns has exactly the
    eleven columns Q006, TP_SEXO, TP_COR_RACA, SG_UF_PROVA, the five scores,
    NOTA_MEDIA_OBJETIVA and GRUPO_RENDA; in particular the registration
    number is not carried over. *)
Theorem extrair_processar_colunas
    (w w' : World) (df : DataFrame) (r : row) :
  extrair_processar w = (Ok df, w') →
  r ∈ df →
  dom r = list_to_set colunas_saida ∧ r !! "NU_INSCRICAO" = None.
Proof.
  intros H Hr.
  destruct (extrair_processar_linha _ _ _ _ H Hr)
    as (ps & rs & p & rr & m & q & _ & _ & Hp & Hrr & Hcp & Hcr & _ & _ & _ & _ & ->).
  assert (dom (<["GRUPO_RENDA":=map_dict grupos_renda q]>
                 (<["NOTA_MEDIA_OBJETIVA":=m]>
                    (projetar colunas_p p ∪ projetar colunas_r rr)))
          = list_to_set colunas_saida) as Hdom.
  { rewrite !dom_insert_L, dom_union_L.
    rewrite (dom_projetar colunas_p p), (dom_projetar colunas_r rr).
    - unfold colunas_saida. rewrite !list_to_set_app_L. simpl. set_solver.
    - eapply Forall_inv_tail, has_columns_Forall; eauto.
    - eapply Forall_inv_tail, has_columns_Forall; eauto. }
  split; [done|].
  apply not_elem_of_dom. rewrite Hdom.
  unfold colunas_saida, colunas_p, colunas_r. simpl.
  rewrite !elem_of_union, !elem_of_singleton, elem_of_empty.
  intros H'. repeat (destruct H' as [H'|H']; [try discriminate|]); try discriminate; done.
Qed.

Lemma extrair_processar_colunas_witness :
  dom (Exemplo.linha_analise 0) = list_to_set colunas_saida ∧
  Exemplo.linha_analise 0 !! "NU_INSCRICAO" = None.
Proof.
  apply (extrair_processar_colunas Exemplo.mundo_carregado
           (extrair_processar Exemplo.mundo_carregado).2 Exemplo.df_analise
           (Exemplo.linha_analise 0)).
  - vm_cast_no_check (@eq_refl _ (extrair_processar Exemplo.mundo_carregado)).
  - apply (list_elem_of_lookup_2 _ 0).
    vm_cast_no_check (@eq_refl _ (Exemplo.df_analise !! 0)).
Defined.

Lemma has_columns_intro (cols : list string) (df : DataFrame) :
  (∀ r c, r ∈ df → c ∈ cols → is_Some (r !! c)) → has_columns cols df = true.
Proof.
  induction df as [|r df IH]; intros H; [done|].
  apply has_columns_cons. split.
  - apply Forall_forall. intros c Hc. apply H; [apply list_elem_of_here|done].
  - apply IH. intros r' c Hr' Hc. apply H; [by apply list_elem_of_further|done].
Qed.

(** [extrair_processar] is the query followed by [processar]. *)
Lemma extrair_processar_processar (w : World) :
  extrair_processar w = (let! df := read_sql_query in processar df) w.
Proof. reflexivity. Qed.

(** The frame [processar] returns, as a whole: the rows of the frame it was
    given that pass [dropna], each with its two derived columns. *)
Lemma processar_estrutura (df0 df : DataFrame) (w w' : World) :
  processar df0 w = (Ok df, w') →
  ∃ medias q006,
    let base := filter (λ r : row, forallb (λ c, notna (r !!! c)) colunas_r) df0 in
    w' = w ∧
    Forall2 (λ r m, mean_row ["NU_NOTA_CN"; "NU_NOTA_CH"; "NU_NOTA_LC"; "NU_NOTA_MT"] r
                      = Ok m) base medias ∧
    Forall2 (λ (r : row) y, r !! "Q006" = Some y)
            (setitem base "NOTA_MEDIA_OBJETIVA" medias) q006 ∧
    df = setitem (setitem base "NOTA_MEDIA_OBJETIVA" medias) "GRUPO_RENDA"
                 (map_dict grupos_renda <$> q006).
Proof.
  unfold processar. intros H.
  apply bind_Ok_inv in H as (df1 & w1 & Hd & H).
  apply bind_Ok_inv in H as (medias & w2 & Hm & H).
  apply bind_Ok_inv in H as (q006 & w3 & Hg & H).
  unfold ret in H. injection H as <- <-.
  pose proof (dropna_puro colunas_r df0 w) as Hw1.
  pose proof (getitem_puro (setitem df1 "NOTA_MEDIA_OBJETIVA" medias) "Q006" w2) as Hw3.
  unfold colunas_r in Hw1. rewrite Hd in Hw1. rewrite Hg in Hw3. simpl in Hw1, Hw3.
  apply dropna_Ok in Hd. subst df1.
  unfold lift in Hm. injection Hm as Hm <-. apply mean_axis1_Ok in Hm.
  apply getitem_Ok in Hg.
  exists medias, q006. split; [congruence|]. done.
Qed.

(** The frame [extrair_processar] returns, as a whole: the rows of the query
    that pass [dropna], each with its two derived columns. *)
Lemma extrair_processar_estrutura (w w' : World) (df : DataFrame) :
  extrair_processar w = (Ok df, w') →
  ∃ ps rs medias q006,
    tabelas w !! "participantes" = Some ps ∧ tabelas w !! "resultados" = Some rs ∧
    has_columns ("NU_INSCRICAO" :: colunas_p) ps = true ∧
    has_columns ("NU_INSCRICAO" :: colunas_r) rs = true ∧
    let base := filter (λ r : row, forallb (λ c, notna (r !!! c)) colunas_r)
                       (consulta ps rs) in
    Forall2 (λ r m, mean_row ["NU_NOTA_CN"; "NU_NOTA_CH"; "NU_NOTA_LC"; "NU_NOTA_MT"] r
                      = Ok m) base medias ∧
    Forall2 (λ (r : row) y, r !! "Q006" = Some y)
            (setitem base "NOTA_MEDIA_OBJETIVA" medias) q006 ∧
    df = setitem (setitem base "NOTA_MEDIA_OBJETIVA" medias) "GRUPO_RENDA"
                 (map_dict grupos_renda <$> q006).
Proof.
  rewrite extrair_processar_processar. intros H.
  apply bind_Ok_inv in H as (df0 & w0 & Hq & H).
  apply read_sql_query_Ok in Hq as (ps & rs & Hps & Hrs & Hcp & Hcr & ->).
  apply processar_estrutura in H as (medias & q006 & _ & Hm & Hg & ->).
  exists ps, rs, medias, q006. repeat (split; [done|]). done.
Qed.

(** X12. The steps of [extrair_processar] after the query drop nothing but
    the rows with a null score and touch nothing but the two derived
    columns: for every frame the query may hand over, in whatever order,
    the frame returned has as many rows as that frame has rows with all
    five scores present, in the order the query gave them, each returned
    row has the cells of its query row in every column other than
    NOTA_MEDIA_OBJETIVA and GRUPO_RENDA, and the world is not touched. *)
Theorem processar_preserva_linhas (df0 df : DataFrame) (w w' : World) :
  processar df0 w = (Ok df, w') →
  let base := filter (λ r : row, forallb (λ c, notna (r !!! c)) colunas_r) df0 in
  w' = w ∧
  length df = length base ∧
  ∀ i r0, base !! i = Some r0 →
    ∃ r, df !! i = Some r ∧
         ∀ c, c ≠ "NOTA_MEDIA_OBJETIVA" → c ≠ "GRUPO_RENDA" → r !! c = r0 !! c.
Proof.
  intros H.
  apply processar_estrutura in H as (medias & q006 & Hw & Hm & Hq & ->).
  cbv zeta in *.
  set (base := filter _ df0) in *.
  pose proof (Forall2_length _ _ _ Hm) as Hlm.
  pose proof (Forall2_length _ _ _ Hq) as Hlq.
  assert (length (setitem base "NOTA_MEDIA_OBJETIVA" medias) = length base) as Hl1
    by (by apply length_setitem).
  split; [done|]. split.
  { rewrite length_setitem; [done|]. by rewrite length_fmap. }
  intros i r0 Hi.
  rewrite lookup_setitem by (by rewrite length_fmap).
  rewrite lookup_setitem, Hi by done. simpl. eexists. split; [done|].
  intros c Hc1 Hc2. by rewrite !lookup_insert_ne.
Qed.

Lemma processar_preserva_linhas_witness :
  let df0 := consulta (default [] (tabelas Exemplo.mundo_carregado !! "participantes"))
                      (default [] (tabelas Exemplo.mundo_carregado !! "resultados")) in
  let base := filter (λ r : row, forallb (λ c, notna (r !!! c)) colunas_r) df0 in
  Exemplo.mundo_carregado = Exemplo.mundo_carregado ∧
  length Exemplo.df_analise = length base ∧
  ∀ i r0, base !! i = Some r0 →
    ∃ r, Exemplo.df_analise !! i = Some r ∧
         ∀ c, c ≠ "NOTA_MEDIA_OBJETIVA" → c ≠ "GRUPO_RENDA" → r !! c = r0 !! c.
Proof.
  apply (processar_preserva_linhas
           (consulta (default [] (tabelas Exemplo.mundo_carregado !! "participantes"))
                     (default [] (tabelas Exemplo.mundo_carregado !! "resultados")))
           Exemplo.df_analise Exemplo.mundo_carregado Exemplo.mundo_carregado).
  vm_cast_no_check
    (@eq_refl _ (processar
                   (consulta (default [] (tabelas Exemplo.mundo_carregado !! "participantes"))
                             (default [] (tabelas Exemplo.mundo_carregado !! "resultados")))
                   Exemplo.mundo_carregado)).
Defined.

(** ** From the files to the analysis frame *)

(** Every query row that passes [dropna] is returned, with its mean and
    its label. *)
Lemma extrair_processar_linha_inv
    (w w' : World) (df ps rs : DataFrame) (r0 : row) :
  extrair_processar w = (Ok df, w') →
  tabelas w !! "participantes" = Some ps →
  tabelas w !! "resultados" = Some rs →
  r0 ∈ consulta ps rs →
  forallb (λ c, notna (r0 !!! c)) colunas_r = true →
  ∃ m q, mean_row ["NU_NOTA_CN"; "NU_NOTA_CH"; "NU_NOTA_LC"; "NU_NOTA_MT"] r0 = Ok m ∧
         r0 !! "Q006" = Some q ∧
         <["GRUPO_RENDA" := map_dict grupos_renda q]> (<["NOTA_MEDIA_OBJETIVA" := m]> r0) ∈ df.
Proof.
  intros H Hps Hrs H0 Hna.
  apply extrair_processar_estrutura in H
    as (ps' & rs' & medias & q006 & Hps' & Hrs' & _ & _ & Hm & Hq & ->).
  rewrite Hps in Hps'. rewrite Hrs in Hrs'. injection Hps' as <-. injection Hrs' as <-.
  cbv zeta in *.
  assert (r0 ∈ filter (λ r : row, forallb (λ c, notna (r !!! c)) colunas_r) (consulta ps rs))
    as Hb by (apply list_elem_of_filter; split; [by apply Is_true_true|done]).
  set (base := filter _ (consulta ps rs)) in *.
  pose proof (Forall2_length _ _ _ Hm) as Hlm.
  pose proof (Forall2_length _ _ _ Hq) as Hlq.
  apply list_elem_of_lookup_1 in Hb as [j Hj].
  destruct (Forall2_lookup_l _ _ _ _ _ Hm Hj) as (m & Hmj & Hmean).
  assert (setitem base "NOTA_MEDIA_OBJETIVA" medias !! j
          = Some (<["NOTA_MEDIA_OBJETIVA" := m]> r0)) as H1.
  { by rewrite lookup_setitem, Hj, Hmj by done. }
  destruct (Forall2_lookup_l _ _ _ _ _ Hq H1) as (q & Hqj & Hq0).
  rewrite lookup_insert_ne in Hq0 by done.
  exists m, q. split; [done|]. split; [done|].
  apply (list_elem_of_lookup_2 _ j).
  rewrite lookup_setitem by (by rewrite length_fmap).
  by rewrite H1, list_lookup_fmap, Hqj.
Qed.

Lemma projetar_insert_fora (cols : list string) (r : row) (k : string) (v : cell) :
  k ∉ cols → projetar cols (<[k := v]> r) = projetar cols r.
Proof.
  intros Hk. apply map_eq. intros c.
  destruct (decide (c ∈ cols)) as [Hc|Hc].
  - rewrite !lookup_projetar by done. apply lookup_insert_ne. by intros ->.
  - by rewrite !lookup_projetar_None.
Qed.

Lemma NU_INSCRICAO_fora_colunas_r : "NU_INSCRICAO" ∉ colunas_r.
Proof.
  unfold colunas_r. intros H.
  repeat (apply elem_of_cons in H as [H|H]; [discriminate H|]).
  by apply elem_of_nil in H.
Qed.

Lemma mean_row_ext (cols : list string) (r r' : row) :
  (∀ c, c ∈ cols → r !! c = r' !! c) → mean_row cols r = mean_row cols r'.
Proof.
  intros H. unfold mean_row.
  assert (mapM (λ c, r !! c) cols = mapM (λ c, r' !! c) cols) as ->; [|done].
  induction cols as [|c cols IH]; [done|]. cbn [mapM].
  rewrite (H c) by apply list_elem_of_here.
  rewrite IH; [done|]. intros c' Hc'. apply H. by apply list_elem_of_further.
Qed.

Lemma notna_consulta_r (p rr : row) :
  forallb (λ c, notna ((projetar colunas_p p ∪ projetar colunas_r rr) !!! c)) colunas_r
  = forallb (λ c, notna (rr !!! c)) colunas_r.
Proof.
  unfold colunas_r at 2 3. cbn [forallb].
  rewrite !lookup_total_alt, !lookup_consulta_r; [done|..].
  all: unfold colunas_r; rewrite !elem_of_cons; auto 10.
Qed.

Lemma mean_row_consulta_r (p rr : row) :
  mean_row ["NU_NOTA_CN"; "NU_NOTA_CH"; "NU_NOTA_LC"; "NU_NOTA_MT"]
           (projetar colunas_p p ∪ projetar colunas_r rr)
  = mean_row ["NU_NOTA_CN"; "NU_NOTA_CH"; "NU_NOTA_LC"; "NU_NOTA_MT"] rr.
Proof.
  apply mean_row_ext. intros c Hc. apply lookup_consulta_r.
  unfold colunas_r. rewrite !elem_of_cons in Hc. rewrite !elem_of_cons.
  destruct Hc as [->|[->|[->|[->|Hc]]]]; auto 10; try by apply elem_of_nil in Hc.
Qed.

Lemma chunksize_padrao_S : ∃ b, chunksize_padrao = S b.
Proof.
  exists (pred chunksize_padrao). symmetry. apply Nat.succ_pred, Nat.eqb_neq.
  vm_compute. reflexivity.
Qed.

(** The database the orchestrator leaves when it starts from no tables and
    both files are there. *)
Lemma verificar_carregar_do_zero (config : Config) (part res : DataFrame) (w : World) :
  tabelas w !! TABELA_PARTICIPANTES config = None →
  tabelas w !! TABELA_RESULTADOS config = None →
  arquivos w !! ARQUIVO_PARTICIPANTES config = Some part →
  arquivos w !! ARQUIVO_RESULTADOS config = Some res →
  has_columns ["NU_INSCRICAO"] part = true →
  tipos_estaveis chunksize_padrao part = true →
  ∃ w1, verificar_carregar config w = (Ok tt, w1) ∧
        tabelas w1 =
          <[TABELA_RESULTADOS config :=
              setitem res "NU_INSCRICAO" ((λ p : row, p !!! "NU_INSCRICAO") <$> part)]>
            (<[TABELA_PARTICIPANTES config := part]> (tabelas w)).
Proof.
  intros Htp Htr Hfp Hfr Hcol Hest.
  destruct chunksize_padrao_S as [b Hb].
  unfold verificar_carregar, has_table.
  unfold bind at 1. unfold bind at 1. rewrite Htp, Htr.
  rewrite (bool_decide_false (is_Some None)) by (intros [? ?]; discriminate). simpl.
  rewrite Hb in *.
  destruct (carregar_tabela_csv_efeito b (TABELA_PARTICIPANTES config)
              (ARQUIVO_PARTICIPANTES config) part w Hfp Hest) as (c & cs & _ & Hcsv).
  unfold bind at 1. rewrite Hcsv.
  rewrite (carregar_tabela_resultados_atribui config b part res) by done.
  simpl. eauto.
Qed.

(** A returned row, traced back to its row of the query. *)
Lemma extrair_processar_linha_consulta
    (w w' : World) (df ps rs : DataFrame) (r : row) :
  extrair_processar w = (Ok df, w') →
  tabelas w !! "participantes" = Some ps →
  tabelas w !! "resultados" = Some rs →
  r ∈ df →
  ∃ r0 m q,
    r0 ∈ consulta ps rs ∧
    forallb (λ c, notna (r0 !!! c)) colunas_r = true ∧
    mean_row ["NU_NOTA_CN"; "NU_NOTA_CH"; "NU_NOTA_LC"; "NU_NOTA_MT"] r0 = Ok m ∧
    r0 !! "Q006" = Some q ∧
    r = <["GRUPO_RENDA" := map_dict grupos_renda q]> (<["NOTA_MEDIA_OBJETIVA" := m]> r0).
Proof.
  intros H Hps Hrs Hr.
  apply extrair_processar_estrutura in H
    as (ps' & rs' & medias & q006 & Hps' & Hrs' & _ & _ & Hm & Hq & ->).
  rewrite Hps in Hps'. rewrite Hrs in Hrs'. injection Hps' as <-. injection Hrs' as <-.
  cbv zeta in *.
  set (base := filter _ (consulta ps rs)) in *.
  pose proof (Forall2_length _ _ _ Hm) as Hlm.
  pose proof (Forall2_length _ _ _ Hq) as Hlq.
  apply list_elem_of_lookup_1 in Hr as [j Hj].
  rewrite lookup_setitem in Hj by (by rewrite length_fmap).
  destruct (setitem _ "NOTA_MEDIA_OBJETIVA" medias !! j) as [r1|] eqn:H1; [|discriminate].
  injection Hj as <-.
  destruct (Forall2_lookup_l _ _ _ _ _ Hq H1) as (q & Hqj & Hq1).
  rewrite lookup_setitem in H1 by done.
  destruct (base !! j) as [r0|] eqn:H0; [|discriminate].
  injection H1 as <-.
  destruct (Forall2_lookup_l _ _ _ _ _ Hm H0) as (m & Hmj & Hmean).
  rewrite lookup_insert_ne in Hq1 by done.
  apply list_elem_of_lookup_2, list_elem_of_filter in H0 as [Hna H0].
  exists r0, m, q. split; [done|]. split; [by apply Is_true_true|].
  split; [done|]. split; [done|].
  by rewrite list_lookup_fmap, Hqj, Hmj.
Qed.

Lemma sql_eq_Null_r (a : cell) : sql_eq a Null = false.
Proof. by destruct a. Qed.

(** In a file whose columns keep one type no cell changes when its column
    becomes float64. *)
Lemma tipos_estaveis_para_float64 (B : nat) (linhas : DataFrame) (c : string) :
  tipos_estaveis B linhas = true →
  has_columns [c] linhas = true →
  Forall (λ v, para_float64 v = v) ((λ r : row, r !!! c) <$> linhas).
Proof.
  unfold tipos_estaveis. destruct linhas as [|r0 linhas0] eqn:El; [constructor|].
  rewrite <-El. intros H Hcol. apply andb_true_iff in H as [_ Hcols].
  apply Is_true_true, forallb_True in Hcols. rewrite Forall_forall in Hcols.
  assert (c ∈ dom r0) as Hc.
  { apply elem_of_dom. eapply has_columns_lookup; [exact Hcol| |apply list_elem_of_here].
    rewrite El. apply list_elem_of_here. }
  specialize (Hcols c). rewrite elem_of_elements in Hcols. specialize (Hcols Hc).
  apply Is_true_true in Hcols. unfold coluna_estavel in Hcols.
  apply orb_true_iff in Hcols as [Hcols|Hcols];
    [apply orb_true_iff in Hcols as [Hcols|Hcols]|apply andb_true_iff in Hcols as [Hcols _]].
  all: apply Is_true_true, forallb_True in Hcols.
  all: eapply Forall_impl; [exact Hcols|].
  all: intros [|q|s]; simpl; try done.
  - intros Hq. apply Is_true_true, andb_true_iff in Hq as [-> ->]. done.
  - intros Hq. apply Is_true_true, orb_true_iff in Hq as [Hq|Hq].
    + apply negb_true_iff in Hq. by rewrite Hq.
    + by rewrite Hq, andb_false_r.
Qed.

Lemma com_nan_id (serie : Series) :
  Forall (λ v, para_float64 v = v) serie → com_nan serie = serie.
Proof.
  intros H. unfold com_nan. destruct (existsb _ _); [done|].
  induction H as [|v serie Hv _ IH]; [done|]. by rewrite fmap_cons, Hv, IH.
Qed.

Lemma reindex_default (serie : Series) (n j : nat) :
  com_nan serie = serie → (j < n)%nat →
  default Null (reindex serie n !! j) = default Null (serie !! j).
Proof.
  intros Hc Hj. destruct (decide (j < length serie)%nat) as [Hlt|Hge].
  - destruct (decide (n ≤ length serie)%nat).
    + by rewrite lookup_reindex_take.
    + rewrite lookup_reindex_lt by lia. by rewrite Hc.
  - rewrite lookup_reindex_ge by lia. by rewrite lookup_ge_None_2 by lia.
Qed.

(** X14. End to end, on an empty database with the tables configured under
    the names the query uses, for files whose columns keep one type (the
    participant file across the batches of the Bulk Loader, the result
    file as a whole, which has at least one data row): when the
    registration numbers of the participant file are pairwise different,
    the frame that reaches the reports holds exactly the pairs "participant
    of line i, result of line i" whose income code is A or B and whose five
    scores are present, each with the mean of its own four objective scores
    and the label of its own code.  The key join of the query undoes the
    positional attachment of the Join Loader without mixing lines. *)
Theorem etl_e_analise_pareia_por_linha
    (config : Config) (part res df : DataFrame) (w w2 : World) :
  TABELA_PARTICIPANTES config = "participantes" →
  TABELA_RESULTADOS config = "resultados" →
  tabelas w !! "participantes" = None →
  tabelas w !! "resultados" = None →
  arquivos w !! ARQUIVO_PARTICIPANTES config = Some part →
  arquivos w !! ARQUIVO_RESULTADOS config = Some res →
  tipos_estaveis chunksize_padrao part = true →
  tipos_estaveis (length res) res = true →
  res ≠ [] →
  inscricoes_distintas part →
  etl_e_analise config w = (Ok df, w2) →
  ∀ r, r ∈ df ↔
    ∃ i (p rr : row) m,
      part !! i = Some p ∧ res !! i = Some rr ∧
      sql_in (p !!! "Q006") ["A"; "B"] = true ∧
      forallb (λ c, notna (rr !!! c)) colunas_r = true ∧
      mean_row ["NU_NOTA_CN"; "NU_NOTA_CH"; "NU_NOTA_LC"; "NU_NOTA_MT"] rr = Ok m ∧
      r = <["GRUPO_RENDA" := map_dict grupos_renda (p !!! "Q006")]>
            (<["NOTA_MEDIA_OBJETIVA" := m]>
               (projetar colunas_p p ∪ projetar colunas_r rr)).
Proof.
  intros Enp Enr Htp Htr Hfp Hfr Hest _ Hres Hdist Hrun.
  assert (has_columns ["NU_INSCRICAO"] part = true) as Hcol.
  { apply has_columns_intro. intros p c Hp Hc.
    apply list_elem_of_singleton in Hc as ->.
    apply list_elem_of_lookup_1 in Hp as [i Hi].
    pose proof (proj2 (Hdist i i p p Hi Hi) eq_refl) as Hself.
    rewrite lookup_total_alt in Hself.
    destruct (p !! "NU_INSCRICAO"); [eauto|discriminate]. }
  destruct (verificar_carregar_do_zero config part res w) as (w1 & Hv & Ht1);
    [by rewrite Enp|by rewrite Enr|done..|].
  unfold etl_e_analise, bind in Hrun. rewrite Hv in Hrun.
  rewrite Enp, Enr in Ht1.
  set (rs := setitem res "NU_INSCRICAO" ((λ p : row, p !!! "NU_INSCRICAO") <$> part)) in *.
  assert (tabelas w1 !! "participantes" = Some part) as Hps.
  { by rewrite Ht1, lookup_insert_ne, lookup_insert_eq. }
  assert (tabelas w1 !! "resultados" = Some rs) as Hrs.
  { by rewrite Ht1, lookup_insert_eq. }
  assert (∀ j, rs !! j =
            (λ rr : row, <["NU_INSCRICAO" :=
                default Null ((λ p : row, p !!! "NU_INSCRICAO") <$> part !! j)]> rr)
              <$> res !! j) as Hrs_j.
  { intros j. unfold rs. rewrite lookup_setitem_cons by done.
    destruct (res !! j) as [rr|] eqn:Hj; [|done]. simpl.
    rewrite reindex_default, list_lookup_fmap; [done| |by eapply lookup_lt_Some].
    by eapply com_nan_id, tipos_estaveis_para_float64. }
  intros r. split.
  - intros Hr.
    destruct (extrair_processar_linha_consulta _ _ _ _ _ _ Hrun Hps Hrs Hr)
      as (r0 & m & q & H0 & Hna & Hmean & Hq & ->).
    apply elem_of_consulta in H0 as (p & rr' & Hp & Hrr' & Heq & Hin & ->).
    apply list_elem_of_lookup_1 in Hp as [i Hi].
    apply list_elem_of_lookup_1 in Hrr' as [j Hj].
    rewrite Hrs_j in Hj.
    destruct (res !! j) as [rr|] eqn:Hrj; [|discriminate]. injection Hj as <-.
    rewrite lookup_total_insert_eq in Heq.
    destruct (part !! j) as [p'|] eqn:Hpj; simpl in Heq;
      [|by rewrite sql_eq_Null_r in Heq].
    apply (Hdist i j p p' Hi Hpj) in Heq as <-.
    rewrite projetar_insert_fora in * by apply NU_INSCRICAO_fora_colunas_r.
    rewrite notna_consulta_r in Hna. rewrite mean_row_consulta_r in Hmean.
    rewrite lookup_consulta_p in Hq by apply list_elem_of_here.
    exists i, p, rr, m. repeat (split; [done|]).
    by rewrite (lookup_total_alt p), Hq.
  - intros (i & p & rr & m & Hi & Hri & Hin & Hna & Hmean & ->).
    set (r0 := projetar colunas_p p ∪ projetar colunas_r rr).
    assert (r0 ∈ consulta part rs) as H0.
    { unfold consulta. apply list_elem_of_bind. exists p.
      split; [|by eapply list_elem_of_lookup_2].
      apply list_elem_of_bind.
      exists (<["NU_INSCRICAO" := p !!! "NU_INSCRICAO"]> rr).
      split; [|apply (list_elem_of_lookup_2 _ i); by rewrite Hrs_j, Hri, Hi].
      rewrite lookup_total_insert_eq, (proj2 (Hdist i i p p Hi Hi) eq_refl), Hin. simpl.
      rewrite projetar_insert_fora by apply NU_INSCRICAO_fora_colunas_r.
      apply list_elem_of_here. }
    destruct (extrair_processar_linha_inv _ _ _ _ _ r0 Hrun Hps Hrs H0)
      as (m' & q & Hmean' & Hq & Hdf).
    { unfold r0. by rewrite notna_consulta_r. }
    unfold r0 in Hmean', Hq. rewrite mean_row_consulta_r, Hmean in Hmean'.
    injection Hmean' as <-.
    rewrite lookup_consulta_p in Hq by apply list_elem_of_here.
    by rewrite (lookup_total_alt p), Hq.
Qed.

Lemma inscricoes_distintas_exemplo : inscricoes_distintas Exemplo.participantes_csv.
Proof.
  intros i j p p' Hi Hj.
  destruct i as [|[|[|i]]]; [..|discriminate Hi].
  all: destruct j as [|[|[|j]]]; [..|discriminate Hj].
  all: apply (inj Some) in Hi; apply (inj Some) in Hj; subst p p'.
  all: split; [intros H; try done; exfalso; vm_compute in H; discriminate H
              |intros [=]; vm_compute; reflexivity].
Qed.

Lemma etl_e_analise_pareia_por_linha_witness :
  Exemplo.linha_analise 1 ∈ Exemplo.df_analise ↔
    ∃ i (p rr : row) m,
      Exemplo.participantes_csv !! i = Some p ∧ Exemplo.resultados_csv !! i = Some rr ∧
      sql_in (p !!! "Q006") ["A"; "B"] = true ∧
      forallb (λ c, notna (rr !!! c)) colunas_r = true ∧
      mean_row ["NU_NOTA_CN"; "NU_NOTA_CH"; "NU_NOTA_LC"; "NU_NOTA_MT"] rr = Ok m ∧
      Exemplo.linha_analise 1 =
        <["GRUPO_RENDA" := map_dict grupos_renda (p !!! "Q006")]>
          (<["NOTA_MEDIA_OBJETIVA" := m]>
             (projetar colunas_p p ∪ projetar colunas_r rr)).
Proof.
  apply (etl_e_analise_pareia_por_linha Exemplo.config0 Exemplo.participantes_csv
           Exemplo.resultados_csv Exemplo.df_analise Exemplo.mundo0
           (etl_e_analise Exemplo.config0 Exemplo.mundo0).2).
  - reflexivity.
  - reflexivity.
  - reflexivity.
  - reflexivity.
  - reflexivity.
  - reflexivity.
  - vm_compute. reflexivity.
  - vm_compute. reflexivity.
  - discriminate.
  - exact inscricoes_distintas_exemplo.
  - vm_cast_no_check (@eq_refl _ (etl_e_analise Exemplo.config0 Exemplo.mundo0)).
Defined.

(** ** Configuration: the outcomes of [carregar_config] *)





(** X17. [carregar_config] ends in a [TypeError] exactly when [DB_PORT] is
    unset (the [int(None)] of the dictionary literal); nothing is printed
    then, whatever the other variables are. *)
Theorem carregar_config_TypeError (environ : gmap string string) :
  (carregar_config environ).1 = Raise TypeError ↔ environ !! "DB_PORT" = None.
Proof.
  unfold carregar_config, py_int, os_getenv at 1.
  destruct (environ !! "DB_PORT") as [s|]; [|done].
  destruct (parse_int s) as [porta|]; [|done].
  split; [|done].
  set (cfg := list_to_map _). destruct (negb _); discriminate.
Qed.

(** ** Connection: the password inside the URL *)

Lemma hex_seguro (n : nat) : (n < 16)%nat → sempre_seguro (hex n) = true.
Proof.
  intros Hn. do 16 (destruct n as [|n]; [reflexivity|]). lia.
Qed.

Lemma hex_inj (n m : nat) : (n < 16)%nat → (m < 16)%nat → hex n = hex m → n = m.
Proof.
  intros Hn Hm.
  do 16 (destruct n as [|n]; [do 16 (destruct m as [|m]; [done|]); lia|]). lia.
Qed.

Lemma nat_of_ascii_lt (a : ascii) : (nat_of_ascii a < 256)%nat.
Proof. apply nat_ascii_bounded. Qed.

(** X18. The password as [conectar_db] puts it into the connection URL
    consists of letters, digits, [_.-~], [+] and [%] only: whatever the
    password is, it brings no [:], [@], [/], [?], [#] or space of its own
    into the URL. *)
Theorem senha_tratada_segura (config : Config) (a : ascii) :
  a ∈ list_ascii_of_string (senha_tratada config) →
  (sempre_seguro a = true ∨ a = "+"%char ∨ a = "%"%char) ∧
  a ∉ [":"; "@"; "/"; "?"; "#"; " "]%char.
Proof.
  intros Ha.
  assert (sempre_seguro a = true ∨ a = "+"%char ∨ a = "%"%char) as Hok.
  { revert Ha. unfold senha_tratada. generalize (DB_PASS config) as s.
    induction s as [|b s IH]; cbn [quote_plus list_ascii_of_string].
    - intros H. by apply elem_of_nil in H.
    - destruct (sempre_seguro b) eqn:Hb; [|destruct (Ascii.eqb b " ")];
        cbn [list_ascii_of_string]; rewrite ?elem_of_cons.
      + intros [->|H]; auto.
      + intros [->|H]; auto.
      + intros [->|[->|[->|H]]]; auto.
        * left. apply hex_seguro, Nat.Div0.div_lt_upper_bound, (nat_of_ascii_lt b).
        * left. apply hex_seguro, Nat.mod_upper_bound. done. }
  split; [done|].
  rewrite !elem_of_cons, elem_of_nil.
  intros Hbad. destruct Hok as [Hs|[-> | ->]].
  - repeat (destruct Hbad as [->|Hbad]; [discriminate Hs|]). done.
  - repeat (destruct Hbad as [[=]|Hbad]). done.
  - repeat (destruct Hbad as [[=]|Hbad]). done.
Qed.

Lemma senha_tratada_segura_witness :
  (sempre_seguro "%" = true ∨ "%"%char = "+"%char ∨ "%"%char = "%"%char) ∧
  "%"%char ∉ [":"; "@"; "/"; "?"; "#"; " "]%char.
Proof.
  apply (senha_tratada_segura
           (mkConfig "localhost" 5432 "enem" "postgres" "p@ss:w/rd 1"
                     "participantes.csv" "resultados.csv" "participantes" "resultados")).
  vm_compute. apply list_elem_of_further, list_elem_of_here.
Defined.

(** The sample password, quoted. *)
Example quote_plus_exemplo : quote_plus "p@ss:w/rd 1" = "p%40ss%3Aw%2Frd+1".
Proof. reflexivity. Qed.

Lemma hex_par_inj (a b : ascii) :
  hex (nat_of_ascii a / 16) = hex (nat_of_ascii b / 16) →
  hex (nat_of_ascii a mod 16) = hex (nat_of_ascii b mod 16) →
  a = b.
Proof.
  intros H1 H2.
  apply hex_inj in H1;
    [|apply Nat.Div0.div_lt_upper_bound, nat_of_ascii_lt
     |apply Nat.Div0.div_lt_upper_bound, nat_of_ascii_lt].
  apply hex_inj in H2; [|by apply Nat.mod_upper_bound..].
  assert (nat_of_ascii a = nat_of_ascii b) as Hn.
  { rewrite (Nat.div_mod_eq (nat_of_ascii a) 16), (Nat.div_mod_eq (nat_of_ascii b) 16).
    by rewrite H1, H2. }
  by rewrite <-(ascii_nat_embedding a), <-(ascii_nat_embedding b), Hn.
Qed.

(** X19. Quoting loses nothing: two passwords with the same quoted form are
    the same password. *)
Theorem quote_plus_inj (s1 s2 : string) : quote_plus s1 = quote_plus s2 → s1 = s2.
Proof.
  revert s2. induction s1 as [|a s1 IH]; intros [|b s2]; cbn [quote_plus].
  - done.
  - destruct (sempre_seguro b); [|destruct (Ascii.eqb b " ")]; discriminate.
  - destruct (sempre_seguro a); [|destruct (Ascii.eqb a " ")]; discriminate.
  - destruct (sempre_seguro a) eqn:Ha; [|destruct (Ascii.eqb a " ") eqn:Hsa];
      (destruct (sempre_seguro b) eqn:Hb; [|destruct (Ascii.eqb b " ") eqn:Hsb]).
    + intros [= -> H]. f_equal. by apply IH.
    + intros [= -> H]. discriminate Ha.
    + intros [= -> H]. discriminate Ha.
    + intros [= <- H]. discriminate Hb.
    + intros [= H]. apply Ascii.eqb_eq in Hsa, Hsb. subst. f_equal. by apply IH.
    + intros [=].
    + intros [= <- H]. discriminate Hb.
    + intros [=].
    + intros [= H1 H2 H]. f_equal; [by apply hex_par_inj|by apply IH].
Qed.

Lemma quote_plus_inj_witness : "a b" = "a b".
Proof. apply (quote_plus_inj "a b" "a b"). reflexivity. Defined.

(** ** Encoding detection *)

(** X20. [detectar_encoding_arquivo] never fails, and it answers with
    something other than ISO-8859-1 only when chardet is installed, the
    file can be read, the detection of its first [sample_size] bytes went
    through with a confidence of at least 0.7, and then the answer is the
    detected encoding. *)
Theorem detectar_encoding_arquivo_padrao
    (chardet : option (string → option deteccao)) (disco : gmap string string)
    (caminho : string) (sample_size : nat) :
  detectar_encoding_arquivo chardet disco caminho sample_size = Some "ISO-8859-1" ∨
  ∃ detect conteudo resultado,
    chardet = Some detect ∧ disco !! caminho = Some conteudo ∧
    detect (substring 0 sample_size conteudo) = Some resultado ∧
    (7 # 10 <= confidence resultado)%Q ∧
    detectar_encoding_arquivo chardet disco caminho sample_size = encoding resultado.
Proof.
  unfold detectar_encoding_arquivo, detectar_encoding_try.
  destruct chardet as [detect|]; [|by left].
  destruct (disco !! caminho) as [conteudo|] eqn:Hd; [|by left].
  destruct (detect (substring 0 sample_size conteudo)) as [resultado|] eqn:Hr; [|by left].
  destruct (Qle_bool (7 # 10) (confidence resultado)) eqn:Hc; simpl; [|by left].
  right. exists detect, conteudo, resultado. repeat (split; [done|]).
  split; [by apply Qle_bool_iff|done].
Qed.
